(** * The order form and the KYC address form of baseapp

    A shallow embedding of two React components:

    - [OrderForm], the order-entry form (amount, unit price, total and
      submit button for a buy or sell order);
    - [AddressComponent] (containers/Confirm/Address/index.tsx), the KYC
      address form (address, city, postcode, country and a scanned
      document).

    The components are written in TypeScript.  Their numbers are IEEE 754
    binary64 values, modelled by Rocq's primitive [float]; their strings are
    sequences of code units, modelled by [string] (one [ascii] per code
    unit, so the model covers the strings whose code units are below 256);
    [undefined] in an optional field is [None].  A component is modelled by
    its state record, one function per method, and the list of callbacks a
    method invokes. *)

From Stdlib Require Import Bool List String Ascii ZArith NArith Lia Floats.
Import ListNotations.

Local Open Scope string_scope.
Local Open Scope list_scope.

(** ** The JavaScript runtime the components rely on *)

Module JS.

(** *** Truthiness and the [||] operator *)

(** ToBoolean on a number: [0], [-0] and [NaN] are falsy. *)
Definition truthy_number (x : float) : bool :=
  negb (is_zero x || is_nan x).

(** ToBoolean on a string: the empty string is falsy. *)
Definition truthy_string (s : string) : bool :=
  match s with
  | EmptyString => false
  | String _ _ => true
  end.

(** ToBoolean on an optional value: [undefined] is falsy. *)
Definition truthy_opt {A : Type} (truthy : A -> bool) (x : option A) : bool :=
  match x with
  | None => false
  | Some a => truthy a
  end.

Definition truthy_bool (b : bool) : bool := b.

(** [x || y] on numbers. *)
Definition or_number (x y : float) : float :=
  if truthy_number x then x else y.

(** [x || y] where [x] is an optional number and [y] a number. *)
Definition or_opt_number (x : option float) (y : float) : float :=
  match x with
  | Some a => or_number a y
  | None => y
  end.

(** [x || y] on strings. *)
Definition or_string (x y : string) : string :=
  if truthy_string x then x else y.

(** [x || y] where [x] is an optional string and [y] a string. *)
Definition or_opt_string (x : option string) (y : string) : string :=
  match x with
  | Some a => or_string a y
  | None => y
  end.

(** [x === y] on strings. *)
Definition str_eq (x y : string) : bool := String.eqb x y.

(** [x === y] on optional strings ([undefined === undefined] holds). *)
Definition opt_str_eq (x y : option string) : bool :=
  match x, y with
  | None, None => true
  | Some a, Some b => str_eq a b
  | _, _ => false
  end.

(** *** [Number(s)]: the StringToNumber conversion *)

Definition code (c : ascii) : N := N_of_ascii c.

Definition in_range (lo hi : N) (c : ascii) : bool :=
  (lo <=? code c)%N && (code c <=? hi)%N.

(** White space and line terminators among the code units below 256:
    TAB, LF, VT, FF, CR, SP and NBSP. *)
Definition isWhiteSpace (c : ascii) : bool :=
  in_range 9 13 c || (code c =? 32)%N || (code c =? 160)%N.

Fixpoint trimStart (s : string) : string :=
  match s with
  | EmptyString => EmptyString
  | String c s' => if isWhiteSpace c then trimStart s' else s
  end.

Fixpoint trimEnd (s : string) : string :=
  match s with
  | EmptyString => EmptyString
  | String c s' =>
      match trimEnd s' with
      | EmptyString => if isWhiteSpace c then EmptyString else String c EmptyString
      | t => String c t
      end
  end.

(** The value of a digit in a base up to 16, if the code unit is one. *)
Definition digitValue (base : N) (c : ascii) : option N :=
  let v :=
    if in_range 48 57 c then Some (code c - 48)%N
    else if in_range 97 102 c then Some (code c - 87)%N
    else if in_range 65 70 c then Some (code c - 55)%N
    else None in
  match v with
  | Some d => if (d <? base)%N then Some d else None
  | None => None
  end.

(** Reads the longest prefix of digits: the number read after [acc], how
    many digits were read, and the rest of the string. *)
Fixpoint readDigits (base : N) (s : string) (acc : N) (count : nat)
  : N * nat * string :=
  match s with
  | EmptyString => (acc, count, s)
  | String c s' =>
      match digitValue base c with
      | Some d => readDigits base s' (acc * base + d)%N (S count)
      | None => (acc, count, s)
      end
  end.

(** The binary64 value nearest to [m * 10^e] (ties to even), with the
    sign [neg].  A negative exponent is a division: the quotient is
    computed with 66 bits or more and a sticky bit, then rounded once. *)
Definition decimalToFloat (neg : bool) (m : N) (e : Z) : float :=
  let sgn (z : Z) := if neg then Z.opp z else z in
  SF2Prim
    (match m with
     | N0 => S754_zero neg
     | Npos p =>
         if (0 <=? e)%Z then
           binary_normalize prec emax (sgn (Zpos p * 10 ^ e)%Z) 0 neg
         else
           let d := (10 ^ (- e))%Z in
           let k := Z.max 0 (Z.log2 d - Z.log2 (Zpos p) + 66)%Z in
           let n := (Zpos p * 2 ^ k)%Z in
           let sticky := if (n mod d =? 0)%Z then 0%Z else 1%Z in
           binary_normalize prec emax (sgn (2 * (n / d) + sticky)%Z)
                            (- (k + 1))%Z neg
     end).

(** The exponent part of a decimal literal: nothing, or [e], an optional
    sign and at least one digit, up to the end of the string. *)
Definition readExponent (s : string) : option Z :=
  match s with
  | EmptyString => Some 0%Z
  | String c s' =>
      if (code c =? 101)%N || (code c =? 69)%N then
        let '(neg, s'') :=
          match s' with
          | String "+" r => (false, r)
          | String "-" r => (true, r)
          | _ => (false, s')
          end in
        match readDigits 10 s'' 0 0 with
        | (_, O, _) => None
        | (x, S _, EmptyString) =>
            Some (if neg then Z.opp (Z.of_N x) else Z.of_N x)
        | (_, S _, String _ _) => None
        end
      else None
  end.

(** StrUnsignedDecimalLiteral: [Infinity], or digits with an optional
    fraction and exponent, at least one digit in all. *)
Definition unsignedDecimal (neg : bool) (s : string) : float :=
  if String.eqb s "Infinity" then (if neg then neg_infinity else infinity)
  else
    let '(ip, ni, r1) := readDigits 10 s 0 0 in
    let '(m, nf, r2) :=
      match r1 with
      | String "." r => readDigits 10 r ip 0
      | _ => (ip, O, r1)
      end in
    match (ni + nf)%nat with
    | O => nan
    | S _ =>
        match readExponent r2 with
        | Some x => decimalToFloat neg m (x - Z.of_nat nf)
        | None => nan
        end
    end.

(** A literal in base 2, 8 or 16 after its prefix: digits only. *)
Definition nonDecimal (base : N) (s : string) : float :=
  match readDigits base s 0 0 with
  | (_, O, _) => nan
  | (x, S _, EmptyString) => decimalToFloat false x 0
  | (_, S _, String _ _) => nan
  end.

(** [Number(s)] for a string [s]. *)
Definition Number (s : string) : float :=
  match trimEnd (trimStart s) with
  | EmptyString => zero
  | String "+" r => unsignedDecimal false r
  | String "-" r => unsignedDecimal true r
  | String "0" (String "x" r) | String "0" (String "X" r) => nonDecimal 16 r
  | String "0" (String "o" r) | String "0" (String "O" r) => nonDecimal 8 r
  | String "0" (String "b" r) | String "0" (String "B" r) => nonDecimal 2 r
  | t => unsignedDecimal false t
  end.

End JS.

(** ** Regular expressions

    Every pattern of the two components has the form [^body$] and no flag,
    so [value.match(pattern)] is non-null exactly when the whole of [value]
    belongs to the language of [body].  Membership is decided by
    derivatives. *)

Module RegExp.

Inductive regex : Type :=
| Void : regex
| Eps : regex
| Class : (ascii -> bool) -> regex
| Cat : regex -> regex -> regex
| Alt : regex -> regex -> regex
| Star : regex -> regex.

(** [r+], [r?], [r{n}] and [r{lo,hi}]. *)
Definition Plus (r : regex) : regex := Cat r (Star r).

Definition Opt (r : regex) : regex := Alt Eps r.

Fixpoint Times (n : nat) (r : regex) : regex :=
  match n with
  | O => Eps
  | S n' => Cat r (Times n' r)
  end.

Fixpoint UpTo (n : nat) (r : regex) : regex :=
  match n with
  | O => Eps
  | S n' => Opt (Cat r (UpTo n' r))
  end.

Definition Repeat (lo hi : nat) (r : regex) : regex :=
  Cat (Times lo r) (UpTo (hi - lo) r).

Fixpoint nullable (r : regex) : bool :=
  match r with
  | Void => false
  | Eps => true
  | Class _ => false
  | Cat r1 r2 => nullable r1 && nullable r2
  | Alt r1 r2 => nullable r1 || nullable r2
  | Star _ => true
  end.

Fixpoint deriv (c : ascii) (r : regex) : regex :=
  match r with
  | Void => Void
  | Eps => Void
  | Class p => if p c then Eps else Void
  | Cat r1 r2 =>
      if nullable r1 then Alt (Cat (deriv c r1) r2) (deriv c r2)
      else Cat (deriv c r1) r2
  | Alt r1 r2 => Alt (deriv c r1) (deriv c r2)
  | Star r1 => Cat (deriv c r1) (Star r1)
  end.

Fixpoint accepts (r : regex) (w : list ascii) : bool :=
  match w with
  | [] => nullable r
  | c :: w' => accepts (deriv c r) w'
  end.

(** [s.match(/^r$/) ? true : false] *)
Definition test (r : regex) (s : string) : bool :=
  accepts r (list_ascii_of_string s).

(** The language of a pattern, as a relation. *)
Inductive lang : regex -> list ascii -> Prop :=
| lang_eps : lang Eps []
| lang_class p c : p c = true -> lang (Class p) [c]
| lang_cat r1 r2 u v : lang r1 u -> lang r2 v -> lang (Cat r1 r2) (u ++ v)
| lang_alt_l r1 r2 w : lang r1 w -> lang (Alt r1 r2) w
| lang_alt_r r1 r2 w : lang r2 w -> lang (Alt r1 r2) w
| lang_star_nil r : lang (Star r) []
| lang_star_cons r u v :
    lang r u -> lang (Star r) v -> lang (Star r) (u ++ v).

(** The character classes of the components' patterns. *)
Definition digit (c : ascii) : bool := JS.in_range 48 57 c.

Definition letter (c : ascii) : bool :=
  JS.in_range 97 122 c || JS.in_range 65 90 c.

Definition is_char (x : ascii) (c : ascii) : bool := Ascii.eqb c x.

(** [[a-zA-Z0-9,.;/\s]] *)
Definition addressClass (c : ascii) : bool :=
  letter c || digit c || is_char "," c || is_char "." c || is_char ";" c
  || is_char "/" c || JS.isWhiteSpace c.

(** [[\d-]] *)
Definition digitOrDash (c : ascii) : bool := digit c || is_char "-" c.

End RegExp.

(** ** The order form *)

Module OrderForm.

(** [type FormType = 'buy' | 'sell'] *)
Inductive FormType : Type := buy | sell.

Definition FormType_text (t : FormType) : string :=
  match t with
  | buy => "buy"
  | sell => "sell"
  end.

(** What the form imports from the helpers and from the Decimal
    component, whose code is outside the component's file:
    [cleanPositiveFloatInput(text)], [getTotalPrice(amount, proposals)]
    and [Decimal.format(value, precision)] (the value may be
    [undefined]). *)
Class Helpers : Type := {
  cleanPositiveFloatInput : string -> string;
  getTotalPrice : string -> list (list string) -> float;
  Decimal_format : option float -> N -> string
}.

(** [OrderFormProps].  Precisions count decimal places and are naturals;
    [listenInputPrice] tells whether the optional callback is given.  The
    currency and market lists only feed the market dropdown, which never
    touches the state, and are left out with it. *)
Module Props.
Record t : Type := mk {
  priceMarket : float;
  priceLimit : option float;
  type : FormType;
  from : string;
  to : string;
  available : option float;
  currentMarketAskPrecision : N;
  currentMarketBidPrecision : N;
  disabled : option bool;
  priceText : option string;
  amountText : option string;
  totalText : option string;
  availableText : option string;
  submitButtonText : option string;
  proposals : list (list string);
  listenInputPrice : bool
}.
End Props.

(** [OrderFormState] *)
Module State.
Record t : Type := mk {
  orderType : string;
  amount : string;
  price : string;
  priceMarket : float;
  currentMarketAskPrecision : N;
  currentMarketBidPrecision : N;
  amountFocused : bool;
  priceFocused : bool
}.

Definition set_amount (v : string) (s : t) : t :=
  mk (orderType s) v (price s) (priceMarket s)
     (currentMarketAskPrecision s) (currentMarketBidPrecision s)
     (amountFocused s) (priceFocused s).

Definition set_price (v : string) (s : t) : t :=
  mk (orderType s) (amount s) v (priceMarket s)
     (currentMarketAskPrecision s) (currentMarketBidPrecision s)
     (amountFocused s) (priceFocused s).

Definition set_market (pm : float) (ask bid : N) (s : t) : t :=
  mk (orderType s) (amount s) (price s) pm ask bid
     (amountFocused s) (priceFocused s).

Definition set_amountFocused (b : bool) (s : t) : t :=
  mk (orderType s) (amount s) (price s) (priceMarket s)
     (currentMarketAskPrecision s) (currentMarketBidPrecision s)
     b (priceFocused s).

Definition set_priceFocused (b : bool) (s : t) : t :=
  mk (orderType s) (amount s) (price s) (priceMarket s)
     (currentMarketAskPrecision s) (currentMarketBidPrecision s)
     (amountFocused s) b.
End State.

(** The price of an order is the [priceMarket] number or the [price]
    string. *)
Inductive NumberOrString : Type :=
| ofNumber : float -> NumberOrString
| ofString : string -> NumberOrString.

(** The object built by [handleSubmit]. *)
Module Order.
Record t : Type := mk {
  type : FormType;
  orderType : string;
  amount : string;
  price : NumberOrString;
  available : float
}.
End Order.

(** The callbacks of the props that a method may invoke. *)
Inductive Call : Type :=
| onSubmit : Order.t -> Call
| listenInputPrice : Call.

(** [p || 6] on a precision. *)
Definition or_precision (p d : N) : N :=
  if (p =? 0)%N then d else p.

(** [handleSetValue(value, defaultValue)] on an optional string. *)
Definition handleSetValue (value : option string) (defaultValue : string)
  : string :=
  JS.or_opt_string value defaultValue.

Definition checkButtonIsDisabled (safeAmount safePrice : float)
    (price : string) (props : Props.t) (state : State.t) : bool :=
  let invalidAmount := (safeAmount <=? 0)%float in
  let invalidLimitPrice :=
    (JS.Number price <=? 0)%float && JS.str_eq (State.orderType state) "Limit" in
  let invalidMarketPrice :=
    (safePrice <=? 0)%float && JS.str_eq (State.orderType state) "Market" in
  JS.truthy_opt JS.truthy_bool (Props.disabled props)
  || negb (JS.truthy_opt JS.truthy_number (Props.available props))
  || invalidAmount || invalidLimitPrice || invalidMarketPrice.

(** [constructor(props)] *)
Definition constructor (props : Props.t) : State.t :=
  State.mk "Market" "" "" (Props.priceMarket props)
           (or_precision (Props.currentMarketAskPrecision props) 6)
           (or_precision (Props.currentMarketBidPrecision props) 6)
           false false.

(** The pattern of [handleAmountChange] for a precision [p]:
    [^(?:[\d-]*\.?[\d-]{0,p}|[\d-]*\.[\d-])$] *)
Definition amountPattern (p : N) : RegExp.regex :=
  let dd := RegExp.Class RegExp.digitOrDash in
  let dot := RegExp.Class (RegExp.is_char ".") in
  RegExp.Alt
    (RegExp.Cat (RegExp.Star dd)
       (RegExp.Cat (RegExp.Opt dot) (RegExp.Repeat 0 (N.to_nat p) dd)))
    (RegExp.Cat (RegExp.Star dd) (RegExp.Cat dot dd)).

(** What [render] shows: the texts of the available balance, of the
    amount input, of the unit price and of the total, the labels, and
    the submit button. *)
Module View.
Record t : Type := mk {
  availableLabel : string;
  availableValue : string;
  amountValue : string;
  amountFocused : bool;
  priceLabel : string;
  unitPrice : string;
  totalLabel : string;
  totalValue : string;
  submitDisabled : bool;
  submitLabel : string
}.
End View.

Section Methods.
Context {helpers : Helpers}.

Definition componentWillReceiveProps (next : Props.t) (s : State.t)
  : State.t :=
  let nextPriceLimitTruncated :=
    Decimal_format (Props.priceLimit next) (State.currentMarketBidPrecision s) in
  let s1 :=
    if JS.str_eq (State.orderType s) "Limit"
       && JS.truthy_opt JS.truthy_number (Props.priceLimit next)
       && negb (JS.str_eq nextPriceLimitTruncated (State.price s))
    then State.set_price nextPriceLimitTruncated s
    else s in
  State.set_market (Props.priceMarket next)
                   (Props.currentMarketAskPrecision next)
                   (Props.currentMarketBidPrecision next) s1.

(** The constants computed at the head of [render]. *)
Definition safeAmount (s : State.t) : float :=
  JS.or_number (JS.Number (State.amount s)) 0%float.

Definition totalPrice (props : Props.t) (s : State.t) : float :=
  getTotalPrice (State.amount s) (Props.proposals props).

Definition safePrice (props : Props.t) (s : State.t) : float :=
  JS.or_number (totalPrice props s / JS.Number (State.amount s))%float
               (State.priceMarket s).

Definition total (props : Props.t) (s : State.t) : float :=
  if JS.str_eq (State.orderType s) "Market" then totalPrice props s
  else (safeAmount s * JS.or_number (JS.Number (State.price s)) 0)%float.

Definition availablePrecision (props : Props.t) (s : State.t) : N :=
  match Props.type props with
  | buy => State.currentMarketBidPrecision s
  | sell => State.currentMarketAskPrecision s
  end.

Definition render (props : Props.t) (s : State.t) : View.t :=
  View.mk
    (handleSetValue (Props.availableText props) "Available")
    (if JS.truthy_opt JS.truthy_number (Props.available props)
     then Decimal_format (Props.available props) (availablePrecision props s)
     else "")
    (handleSetValue (Some (State.amount s)) "")
    (State.amountFocused s)
    (handleSetValue (Props.priceText props) "")
    (handleSetValue
       (Some (Decimal_format (Some (safePrice props s))
                             (State.currentMarketBidPrecision s))) "0")
    (handleSetValue (Props.totalText props) "Total")
    (Decimal_format (Some (total props s)) (State.currentMarketBidPrecision s))
    (checkButtonIsDisabled (safeAmount s) (safePrice props s)
                           (State.price s) props s)
    (JS.or_opt_string (Props.submitButtonText props)
                      (FormType_text (Props.type props))).

Definition handleFieldFocus (field : option string) (props : Props.t)
    (s : State.t) : State.t * list Call :=
  if JS.opt_str_eq field (Props.priceText props) then
    (State.set_priceFocused (negb (State.priceFocused s)) s,
     if Props.listenInputPrice props then [listenInputPrice] else [])
  else if JS.opt_str_eq field (Props.amountText props) then
    (State.set_amountFocused (negb (State.amountFocused s)) s, [])
  else (s, []).

Definition handleAmountChange (value : string) (s : State.t) : State.t :=
  let convertedValue := cleanPositiveFloatInput value in
  let condition := amountPattern (State.currentMarketAskPrecision s) in
  if RegExp.test condition convertedValue
  then State.set_amount convertedValue s
  else s.

Definition handleSubmit (props : Props.t) (s : State.t)
  : State.t * list Call :=
  let order :=
    Order.mk (Props.type props) (State.orderType s) (State.amount s)
             (if JS.str_eq (State.orderType s) "Market"
              then ofNumber (State.priceMarket s)
              else ofString (State.price s))
             (JS.or_opt_number (Props.available props) 0%float) in
  (State.set_price "" (State.set_amount "" s), [onSubmit order]).

End Methods.

End OrderForm.

(** ** The KYC address form *)

Module Address.

(** A file chosen in the upload input; the form reads its name. *)
Record File : Type := mkFile { name : string }.

(** What the form takes from the i18n-iso-countries package:
    [countries.getAlpha2Code(name, lang)]. *)
Class Countries : Type := {
  getAlpha2Code : string -> string -> string
}.

(** The props the methods read: the language, and the [success] message
    of the last submission. *)
Module Props.
Record t : Type := mk {
  lang : string;
  success : option string
}.
End Props.

Module State.
Record t : Type := mk {
  country : string;
  address : string;
  addressFocused : bool;
  city : string;
  cityFocused : bool;
  postcode : string;
  postcodeFocused : bool;
  fileScan : list File
}.

Definition set_country (v : string) (s : t) : t :=
  mk v (address s) (addressFocused s) (city s) (cityFocused s)
     (postcode s) (postcodeFocused s) (fileScan s).

Definition set_address (v : string) (s : t) : t :=
  mk (country s) v (addressFocused s) (city s) (cityFocused s)
     (postcode s) (postcodeFocused s) (fileScan s).

Definition set_addressFocused (b : bool) (s : t) : t :=
  mk (country s) (address s) b (city s) (cityFocused s)
     (postcode s) (postcodeFocused s) (fileScan s).

Definition set_city (v : string) (s : t) : t :=
  mk (country s) (address s) (addressFocused s) v (cityFocused s)
     (postcode s) (postcodeFocused s) (fileScan s).

Definition set_cityFocused (b : bool) (s : t) : t :=
  mk (country s) (address s) (addressFocused s) (city s) b
     (postcode s) (postcodeFocused s) (fileScan s).

Definition set_postcode (v : string) (s : t) : t :=
  mk (country s) (address s) (addressFocused s) (city s) (cityFocused s)
     v (postcodeFocused s) (fileScan s).

Definition set_postcodeFocused (b : bool) (s : t) : t :=
  mk (country s) (address s) (addressFocused s) (city s) (cityFocused s)
     (postcode s) b (fileScan s).

Definition set_fileScan (v : list File) (s : t) : t :=
  mk (country s) (address s) (addressFocused s) (city s) (cityFocused s)
     (postcode s) (postcodeFocused s) v.
End State.

(** The state the class starts with. *)
Definition initialState : State.t :=
  State.mk "" "" false "" false "" false [].

(** A value of a [FormData] entry: a file, or a string. *)
Inductive FormDataValue : Type :=
| fileValue : File -> FormDataValue
| stringValue : string -> FormDataValue.

(** A [FormData]: its entries in the order they were appended. *)
Definition FormData : Type := list (string * FormDataValue).

Definition append (key : string) (v : FormDataValue) (d : FormData)
  : FormData :=
  d ++ [(key, v)].

(** [fileScan[0]] as an entry value: [append] turns a value that is not a
    file, here [undefined], into its string. *)
Definition firstFile (files : list File) : FormDataValue :=
  match files with
  | f :: _ => fileValue f
  | [] => stringValue "undefined"
  end.

(** The callbacks a method may invoke: [props.sendAddresses(request)] and
    [props.history.push(path)]. *)
Inductive Call : Type :=
| sendAddresses : FormData -> Call
| historyPush : string -> Call.

(** The text fields [render] wires to [handleChange] and
    [handleFieldFocus]. *)
Inductive Field : Type := addressField | cityField | postcodeField.

Definition Field_key (f : Field) : string :=
  match f with
  | addressField => "address"
  | cityField => "city"
  | postcodeField => "postcode"
  end.

Definition UNSAFE_componentWillReceiveProps (next : Props.t) : list Call :=
  if JS.truthy_opt JS.truthy_string (Props.success next)
  then [historyPush "/settings"]
  else [].

(** [handleChange(value, key)]: [setState({ [key]: value })], called by
    [render] with the keys of the three text fields. *)
Definition handleChange (value : string) (key : Field) (s : State.t)
  : State.t :=
  match key with
  | addressField => State.set_address value s
  | cityField => State.set_city value s
  | postcodeField => State.set_postcode value s
  end.

Definition handleFieldFocus (field : string) (s : State.t) : State.t :=
  if JS.str_eq field "address" then
    State.set_addressFocused (negb (State.addressFocused s)) s
  else if JS.str_eq field "city" then
    State.set_cityFocused (negb (State.cityFocused s)) s
  else if JS.str_eq field "postcode" then
    State.set_postcodeFocused (negb (State.postcodeFocused s)) s
  else s.

Definition selectCountry {countries : Countries} (value : string)
    (props : Props.t) (s : State.t) : State.t :=
  State.set_country (getAlpha2Code value (Props.lang props)) s.

(** [handleUploadScan(uploadEvent, id)], with the files of the event. *)
Definition handleUploadScan (allFiles : list File) (id : string)
    (s : State.t) : State.t :=
  let maxDocsCount := 1%nat in
  let additionalFileList :=
    if (maxDocsCount <? List.length allFiles)%nat
    then firstn maxDocsCount allFiles
    else allFiles in
  if JS.str_eq id "fileScan"
  then State.set_fileScan additionalFileList s
  else s.

(** The patterns of [handleValidateInput]. *)
Definition residentialAddressRegex : RegExp.regex :=
  RegExp.Plus (RegExp.Class RegExp.addressClass).

Definition cityRegex : RegExp.regex :=
  RegExp.Plus (RegExp.Class RegExp.letter).

Definition postcodeRegex : RegExp.regex :=
  RegExp.Repeat 1 12 (RegExp.Class RegExp.digit).

Definition handleValidateInput (field value : string) : bool :=
  if JS.str_eq field "address" then
    RegExp.test residentialAddressRegex value
  else if JS.str_eq field "city" then
    RegExp.test cityRegex value
  else if JS.str_eq field "postcode" then
    RegExp.test postcodeRegex value
  else true.

Definition handleCheckButtonDisabled (s : State.t) : bool :=
  let addressValid := handleValidateInput "address" (State.address s) in
  let cityValid := handleValidateInput "city" (State.city s) in
  let postcodeValid := handleValidateInput "postcode" (State.postcode s) in
  negb addressValid
  || negb cityValid
  || negb postcodeValid
  || negb (JS.truthy_string (State.country s))
  || (List.length (State.fileScan s) =? 0)%nat.

Definition sendAddress (s : State.t) : list Call :=
  let request := [] in
  let request := append "upload[]" (firstFile (State.fileScan s)) request in
  let request := append "address" (stringValue (State.address s)) request in
  let request := append "country" (stringValue (State.country s)) request in
  let request := append "city" (stringValue (State.city s)) request in
  let request := append "postcode" (stringValue (State.postcode s)) request in
  [sendAddresses request].

(** What [render] derives from the state: the "wrong" mark of each text
    field, the name of the uploaded file, and the submit button. *)
Module View.
Record t : Type := mk {
  addressWrong : bool;
  cityWrong : bool;
  postcodeWrong : bool;
  uploadedFile : option string;
  submitDisabled : bool
}.
End View.

Definition render (s : State.t) : View.t :=
  View.mk
    (JS.truthy_string (State.address s)
     && negb (handleValidateInput "address" (State.address s)))
    (JS.truthy_string (State.city s)
     && negb (handleValidateInput "city" (State.city s)))
    (JS.truthy_string (State.postcode s)
     && negb (handleValidateInput "postcode" (State.postcode s)))
    (match State.fileScan s with
     | f :: _ => Some (name f)
     | [] => None
     end)
    (handleCheckButtonDisabled s).

(** The events [render] wires to the methods, and the props the parent
    sends. *)
Inductive Event : Type :=
| Change : Field -> string -> Event
| Focus : Field -> Event
| SelectCountry : string -> Event
| UploadScan : list File -> Event
| Submit : Event
| ReceiveProps : Props.t -> Event.

Section Component.
Context {countries : Countries}.

Definition step (props : Props.t) (s : State.t) (e : Event)
  : State.t * list Call :=
  match e with
  | Change key value => (handleChange value key s, [])
  | Focus field => (handleFieldFocus (Field_key field) s, [])
  | SelectCountry value => (selectCountry value props s, [])
  | UploadScan files => (handleUploadScan files "fileScan" s, [])
  | Submit => (s, sendAddress s)
  | ReceiveProps next => (s, UNSAFE_componentWillReceiveProps next)
  end.

(** The states the form can be in: the initial one, and those an event
    leads to. *)
Inductive reachable : State.t -> Prop :=
| reachable_init : reachable initialState
| reachable_step props s e :
    reachable s -> reachable (fst (step props s e)).
End Component.

End Address.

(** ** The currency dropdown of the order form *)

Module Markets.

(** [s.toLowerCase()] on code units below 256: [A]-[Z] and the capital
    letters from U+00C0 to U+00DE, the multiplication sign U+00D7 apart,
    move up by 32; every other code unit stays. *)
Definition lowerChar (c : ascii) : ascii :=
  if JS.in_range 65 90 c
     || (JS.in_range 192 222 c && negb (JS.code c =? 215)%N)
  then ascii_of_N (JS.code c + 32)
  else c.

Fixpoint toLowerCase (s : string) : string :=
  match s with
  | EmptyString => EmptyString
  | String c rest => String (lowerChar c) (toLowerCase rest)
  end.

(** What the form reads of the modules and constants outside its file: of
    a [Currency] its [id] (tested before use, so possibly [undefined]) and
    its [name]; of a [Market] its [base_unit] and [quote_unit]; and the
    constant [VALUATION_PRIMARY_CURRENCY]. *)
Class Modules : Type := {
  Currency : Type;
  Market : Type;
  id : Currency -> option string;
  name : Currency -> string;
  base_unit : Market -> string;
  quote_unit : Market -> string;
  VALUATION_PRIMARY_CURRENCY : string
}.

Section Methods.
Context {modules : Modules}.

(** [currencies && markets && currencies.length && markets.length] *)
Definition bothGiven (currencies : option (list Currency))
    (markets : option (list Market)) : bool :=
  match currencies, markets with
  | Some cs, Some ms =>
      negb (List.length cs =? 0)%nat && negb (List.length ms =? 0)%nat
  | _, _ => false
  end.

(** [cur.id && cur.id.toLowerCase() !== VALUATION_PRIMARY_CURRENCY.toLowerCase()] *)
Definition notPrimary (cur : Currency) : bool :=
  match id cur with
  | Some i =>
      JS.truthy_string i
      && negb (JS.str_eq (toLowerCase i) (toLowerCase VALUATION_PRIMARY_CURRENCY))
  | None => false
  end.

(** [cur.id && cur.id.toLowerCase()]: [undefined] or the empty id itself,
    else the id in lower case. *)
Definition idLowered (cur : Currency) : option string :=
  match id cur with
  | Some i => if JS.truthy_string i then Some (toLowerCase i) else Some i
  | None => None
  end.

(** The test of [markets.find] in [componentDidMount] and in
    [formatCurrencyList]. *)
Definition tradesAgainstPrimary (cur : Currency) (market : Market) : bool :=
  JS.opt_str_eq (idLowered cur) (Some (toLowerCase (base_unit market)))
  && JS.str_eq (quote_unit market) (toLowerCase VALUATION_PRIMARY_CURRENCY).

(** The loop of [currencies.some] in [componentDidMount]: the markets
    [setCurrentMarket] is called with. *)
Fixpoint someSetsMarket (markets : list Market) (currencies : list Currency)
  : list Market :=
  match currencies with
  | [] => []
  | cur :: rest =>
      if notPrimary cur then
        match find (tradesAgainstPrimary cur) markets with
        | Some targetMarket => [targetMarket]
        | None => someSetsMarket markets rest
        end
      else someSetsMarket markets rest
  end.

(** [componentDidMount()]: the calls of [props.setCurrentMarket]. *)
Definition componentDidMount (currencies : option (list Currency))
    (markets : option (list Market)) : list Market :=
  match currencies, markets with
  | Some cs, Some ms =>
      if bothGiven currencies markets then someSetsMarket ms cs else []
  | _, _ => []
  end.

(** [formatCurrencyList(currencies, markets)] *)
Definition formatCurrencyList (currencies : option (list Currency))
    (markets : option (list Market)) : list string :=
  match currencies, markets with
  | Some cs, Some ms =>
      if bothGiven currencies markets then
        fold_left
          (fun formattedList cur =>
             if notPrimary cur then
               match find (tradesAgainstPrimary cur) ms with
               | Some _ => formattedList ++ [name cur]
               | None => formattedList
               end
             else formattedList)
          cs []
      else []
  | _, _ => []
  end.

(** [handleChangeBaseCurrency(value)]: the calls of
    [props.setCurrentMarket]. *)
Definition handleChangeBaseCurrency (value : option string)
    (currencies : option (list Currency)) (markets : option (list Market))
  : list Market :=
  let targetBaseUnit :=
    match currencies with
    | Some cs =>
        if (List.length cs =? 0)%nat then None
        else find (fun cur => JS.opt_str_eq (Some (name cur)) value) cs
    | None => None
    end in
  match targetBaseUnit, markets with
  | Some target, Some ms =>
      if (List.length ms =? 0)%nat then []
      else
        match
          find (fun market =>
                  JS.opt_str_eq (Some (base_unit market)) (id target)
                  && JS.str_eq (quote_unit market)
                               (toLowerCase VALUATION_PRIMARY_CURRENCY)) ms
        with
        | Some marketToSet => [marketToSet]
        | None => []
        end
  | _, _ => []
  end.

(** The [onSelect] of the dropdown in [render]:
    [value => this.handleChangeBaseCurrency(currenciesList[value])]. *)
Definition onSelect (value : nat) (currencies : option (list Currency))
    (markets : option (list Market)) : list Market :=
  handleChangeBaseCurrency
    (nth_error (formatCurrencyList currencies markets) value)
    currencies markets.

End Methods.

End Markets.

(** ** The life of an order form *)

Module Lifecycle.
Import OrderForm.

(** What happens to a mounted form: the parent sends props, and [render]
    wires the amount input to [handleAmountChange] and to
    [handleFieldFocus(amountText)], and the button to [handleSubmit].  The
    dropdown calls [setCurrentMarket] only and is in [Markets]. *)
Inductive Event : Type :=
| ReceiveProps : Props.t -> Event
| FocusAmount : Event
| AmountChange : string -> Event
| Submit : Event.

Section Component.
Context {helpers : Helpers}.

Definition step (props : Props.t) (s : State.t) (e : Event)
  : State.t * list Call :=
  match e with
  | ReceiveProps next => (componentWillReceiveProps next s, [])
  | FocusAmount => handleFieldFocus (Props.amountText props) props s
  | AmountChange value => (handleAmountChange value s, [])
  | Submit => handleSubmit props s
  end.

(** The states of a form: the one its constructor builds, and those an
    event leads to. *)
Inductive reachable : State.t -> Prop :=
| reachable_init props : reachable (constructor props)
| reachable_step props s e :
    reachable s -> reachable (fst (step props s e)).

End Component.

End Lifecycle.

(** ** Sample collaborators

    The helpers the order form imports are outside its file.  This module
    gives each of them as the spec describes it, and sample props and
    states, to run the forms on concrete inputs and to state what the spec
    says of the helpers themselves. *)

Module Sample.

(** Modelled from the spec: the helper [getTotalPrice] is not in the
    component's file.  "Proposal list: ordered sequence of (price, volume)
    pairs ... used to compute a volume-weighted total for a given amount";
    "total = amount x averaged proposal price": the amount times the
    average of the proposals' prices, each weighted by its volume. *)
Definition proposalField (i : nat) (proposal : list string) : float :=
  match nth_error proposal i with
  | Some s => JS.Number s
  | None => nan
  end.

Definition averagedPrice (proposals : list (list string)) : float :=
  let weighted :=
    fold_left (fun acc p => acc + proposalField 0 p * proposalField 1 p)%float
              proposals 0%float in
  let volume :=
    fold_left (fun acc p => acc + proposalField 1 p)%float proposals 0%float in
  (weighted / volume)%float.

Definition getTotalPrice (amount : string) (proposals : list (list string))
  : float :=
  (JS.Number amount * averagedPrice proposals)%float.

(** Modelled from the spec: the helper [cleanPositiveFloatInput] is not in
    the component's file, and the spec says of it only that malformed
    input is then rejected by the pattern; the sample keeps the text as
    typed, but for a decimal comma, which becomes a point. *)
Fixpoint cleanPositiveFloatInput (text : string) : string :=
  match text with
  | EmptyString => EmptyString
  | String c rest =>
      if RegExp.is_char "," c then String "." rest
      else String c (cleanPositiveFloatInput rest)
  end.

(** Decimal digits of a natural number, padded with zeros on the left to
    [width] digits. *)
Fixpoint digits (fuel : nat) (n : N) (width : nat) (acc : string) : string :=
  match fuel with
  | O => acc
  | S fuel' =>
      let d := ascii_of_N (48 + n mod 10) in
      let acc' := String d acc in
      let n' := (n / 10)%N in
      if (n' =? 0)%N && (width <=? 1)%nat then acc'
      else digits fuel' n' (pred width) acc'
  end.

Definition decimal (n : N) (width : nat) : string :=
  digits (S (N.to_nat (N.log2 n)) + width) n width "".

(** Modelled from the spec: [Decimal.format] is not in the component's
    file.  "clamped to a display precision": the value cut after
    [precision] decimal places; [undefined] reads as zero. *)
Definition Decimal_format (value : option float) (precision : N) : string :=
  let scale := (10 ^ Z.of_N precision)%Z in
  let show (neg : bool) (scaled : Z) : string :=
    let whole := decimal (Z.to_N (scaled / scale)) 1 in
    let text :=
      if (precision =? 0)%N then whole
      else (whole ++ "."
            ++ decimal (Z.to_N (scaled mod scale)) (N.to_nat precision))%string in
    if neg && (0 <? scaled)%Z then ("-" ++ text)%string else text in
  match value with
  | None => show false 0%Z
  | Some x =>
      match Prim2SF x with
      | S754_nan => "NaN"
      | S754_infinity false => "Infinity"
      | S754_infinity true => "-Infinity"
      | S754_zero _ => show false 0%Z
      | S754_finite neg m e =>
          show neg
            (if (0 <=? e)%Z then Zpos m * 2 ^ e * scale
             else (Zpos m * scale) / 2 ^ (- e))%Z
      end
  end.

#[export] Instance helpers : OrderForm.Helpers := {
  cleanPositiveFloatInput := cleanPositiveFloatInput;
  getTotalPrice := getTotalPrice;
  Decimal_format := Decimal_format
}.

(** A two-entry table for [countries.getAlpha2Code]. *)
#[export] Instance countries : Address.Countries := {
  getAlpha2Code name lang :=
    if JS.str_eq name "Germany" then "DE"
    else if JS.str_eq name "France" then "FR"
    else ""
}.

(** A buy form on a market quoted with two decimals, with 100 available
    and two proposals: 2 units at 10 and 2 units at 20. *)
Definition props : OrderForm.Props.t :=
  OrderForm.Props.mk 15%float None OrderForm.buy "usd" "btc" (Some 100%float)
    4 2 None (Some "Price") (Some "Amount") None None None
    [["10"; "2"]; ["20"; "2"]] true.

(** The form after the user typed the amount 3. *)
Definition state : OrderForm.State.t :=
  OrderForm.State.set_amount "3" (OrderForm.constructor props).

(** The same form in limit mode at the price 12.5. *)
Definition limitState : OrderForm.State.t :=
  OrderForm.State.mk "Limit" "3" "12.50" 15%float 4 2 false false.

Definition scan : Address.File := Address.mkFile "bill.pdf".

(** An address form filled in. *)
Definition addressState : Address.State.t :=
  Address.State.mk "DE" "Main Street 5, Flat 2" false "Berlin" false
                   "10115" false [scan].

(** The form with the amount 0 typed in. *)
Definition zeroState : OrderForm.State.t :=
  OrderForm.State.set_amount "0" (OrderForm.constructor props).

(** The same form on a market quoted in whole units: the bid precision of
    the props is 0. *)
Definition wholeProps : OrderForm.Props.t :=
  OrderForm.Props.mk 15%float None OrderForm.buy "usd" "btc" (Some 100%float)
    4 0 None (Some "Price") (Some "Amount") None None None
    [["10"; "2"]; ["20"; "2"]] true.

(** That form, just constructed, after the user typed the amount 3. *)
Definition wholeState : OrderForm.State.t :=
  OrderForm.State.set_amount "3" (OrderForm.constructor wholeProps).

(** The same form for a user with nothing available. *)
Definition propsNoFunds : OrderForm.Props.t :=
  OrderForm.Props.mk 15%float None OrderForm.buy "usd" "btc" None
    4 2 None (Some "Price") (Some "Amount") None None None
    [["10"; "2"]; ["20"; "2"]] true.

(** The same form for a user whose balance is 0. *)
Definition propsEmptied : OrderForm.Props.t :=
  OrderForm.Props.mk 15%float None OrderForm.buy "usd" "btc" (Some 0%float)
    4 2 None (Some "Price") (Some "Amount") None None None
    [["10"; "2"]; ["20"; "2"]] true.

Definition addressProps : Address.Props.t := Address.Props.mk "en" None.

(** Three documents chosen at once. *)
Definition scans : list Address.File :=
  [scan; Address.mkFile "lease.pdf"; Address.mkFile "id.png"].

End Sample.

(** ** The forms in words

    What each pattern of the two forms accepts, stated on the string
    itself, and what an address submission carries. *)

Module Words.

(** Every code unit of [s] belongs to the class [cls]. *)
Definition allIn (cls : ascii -> bool) (s : string) : Prop :=
  Forall (fun c => cls c = true) (list_ascii_of_string s).

(** [^[cls]+$]: one code unit or more, all of the class. *)
Definition oneOrMore (cls : ascii -> bool) (s : string) : Prop :=
  (1 <= String.length s)%nat /\ allIn cls s.

(** [^[cls]{lo,hi}$]: between [lo] and [hi] code units, all of the
    class. *)
Definition between (lo hi : nat) (cls : ascii -> bool) (s : string) : Prop :=
  (lo <= String.length s <= hi)%nat /\ allIn cls s.

(** The five conditions under which the address form can be sent. *)
Definition addressFormValid (s : Address.State.t) : Prop :=
  oneOrMore RegExp.addressClass (Address.State.address s)
  /\ oneOrMore RegExp.letter (Address.State.city s)
  /\ between 1 12 RegExp.digit (Address.State.postcode s)
  /\ Address.State.country s <> ""
  /\ Address.State.fileScan s <> [].

(** The amounts the order form accepts for a precision [p]: digits and
    dashes only, or digits and dashes around one point, with at most [p] of
    them, or exactly one, after the point. *)
Definition amountShape (p : nat) (s : string) : Prop :=
  allIn RegExp.digitOrDash s
  \/ exists whole frac : string,
       s = (whole ++ "." ++ frac)%string
       /\ allIn RegExp.digitOrDash whole
       /\ allIn RegExp.digitOrDash frac
       /\ (String.length frac <= p \/ String.length frac = 1)%nat.

(** A text clamped to [precision] decimals: an optional sign, digits, and,
    unless the precision is zero, a point and exactly [precision] digits;
    or the text of a number that has no digits. *)
Definition clampedTo (precision : N) (text : string) : Prop :=
  text = "NaN" \/ text = "Infinity" \/ text = "-Infinity"
  \/ exists sign whole frac : string,
       (sign = "" \/ sign = "-")
       /\ whole <> "" /\ allIn RegExp.digit whole
       /\ allIn RegExp.digit frac
       /\ String.length frac = N.to_nat precision
       /\ text = (sign ++ whole
                  ++ (if (precision =? 0)%N then "" else "." ++ frac))%string.

(** The five entries of an address submission, from a state. *)
Definition payload (s : Address.State.t) : Address.FormData :=
  [ ("upload[]", Address.firstFile (Address.State.fileScan s));
    ("address", Address.stringValue (Address.State.address s));
    ("country", Address.stringValue (Address.State.country s));
    ("city", Address.stringValue (Address.State.city s));
    ("postcode", Address.stringValue (Address.State.postcode s)) ].

End Words.

(** ** Sample currencies and markets *)

Module SampleMarkets.

Record Currency : Type := mkCurrency {
  id : option string;
  name : string
}.

Record Market : Type := mkMarket {
  market_name : string;
  base_unit : string;
  quote_unit : string
}.

(** Currencies and markets as records, valued in USD. *)
#[export] Instance modules : Markets.Modules := {
  Markets.Currency := Currency;
  Markets.Market := Market;
  Markets.id := id;
  Markets.name := name;
  Markets.base_unit := base_unit;
  Markets.quote_unit := quote_unit;
  Markets.VALUATION_PRIMARY_CURRENCY := "USD"
}.

Definition usd : Currency := mkCurrency (Some "usd") "US Dollar".
Definition btc : Currency := mkCurrency (Some "btc") "Bitcoin".
Definition eth : Currency := mkCurrency (Some "eth") "Ethereum".
Definition xrp : Currency := mkCurrency (Some "xrp") "Ripple".

Definition btcusd : Market := mkMarket "BTC/USD" "btc" "usd".
Definition ethbtc : Market := mkMarket "ETH/BTC" "eth" "btc".
Definition ethusd : Market := mkMarket "ETH/USD" "eth" "usd".

Definition currencies : list Currency := [usd; btc; eth; xrp].
Definition markets : list Market := [btcusd; ethbtc; ethusd].

End SampleMarkets.

(** * Properties *)

(** ** Derivatives decide the language of a pattern *)

Section RegExpFacts.
Import RegExp.

Lemma lang_void_inv w : lang Void w -> False.
Proof. inversion 1. Qed.

Lemma lang_eps_inv w : lang Eps w -> w = [].
Proof. inversion 1; reflexivity. Qed.

Lemma lang_class_inv p w :
  lang (Class p) w -> exists c, w = [c] /\ p c = true.
Proof. inversion 1; subst; eauto. Qed.

Lemma lang_cat_inv r1 r2 w :
  lang (Cat r1 r2) w -> exists u v, w = u ++ v /\ lang r1 u /\ lang r2 v.
Proof. inversion 1; subst; eauto. Qed.

Lemma lang_alt_inv r1 r2 w :
  lang (Alt r1 r2) w -> lang r1 w \/ lang r2 w.
Proof. inversion 1; subst; auto. Qed.

(** A non-empty word of [r*] starts with a non-empty word of [r]. *)
Lemma lang_star_cons_inv r c w :
  lang (Star r) (c :: w) ->
  exists u v, w = u ++ v /\ lang r (c :: u) /\ lang (Star r) v.
Proof.
  intros H.
  remember (Star r) as sr eqn:Esr.
  remember (c :: w) as cw eqn:Ecw.
  revert c w Ecw.
  induction H as [| | | | | r0 | r0 u v Hu _ Hv IHv];
    intros a w' E; try discriminate.
  injection Esr as ->.
  destruct u as [|b u]; simpl in E.
  - exact (IHv eq_refl a w' E).
  - injection E as Hb Hw. subst b w'. exists u, v. auto.
Qed.

Lemma nullable_lang r : nullable r = true <-> lang r [].
Proof.
  induction r as [| |p|r1 IH1 r2 IH2|r1 IH1 r2 IH2|r IH]; simpl.
  - split; [discriminate | intros H; destruct (lang_void_inv _ H)].
  - split; [intros _; constructor | reflexivity].
  - split; [discriminate |].
    intros H. apply lang_class_inv in H as (c & E & _). discriminate.
  - rewrite andb_true_iff, IH1, IH2. split.
    + intros [H1 H2]. exact (lang_cat r1 r2 [] [] H1 H2).
    + intros H. apply lang_cat_inv in H as (u & v & E & Hu & Hv).
      symmetry in E. apply app_eq_nil in E as [-> ->]. auto.
  - rewrite orb_true_iff, IH1, IH2. split.
    + intros [H | H]; [apply lang_alt_l | apply lang_alt_r]; exact H.
    + apply lang_alt_inv.
  - split; [intros _; constructor | reflexivity].
Qed.

Lemma deriv_lang r : forall c w, lang (deriv c r) w <-> lang r (c :: w).
Proof.
  induction r as [| |p|r1 IH1 r2 IH2|r1 IH1 r2 IH2|r IH]; intros c w; simpl.
  - split; intros H; destruct (lang_void_inv _ H).
  - split; intros H; [destruct (lang_void_inv _ H) |].
    apply lang_eps_inv in H. discriminate.
  - destruct (p c) eqn:Hp; split; intros H.
    + apply lang_eps_inv in H as ->. constructor. exact Hp.
    + apply lang_class_inv in H as (c' & E & _).
      injection E as -> ->. constructor.
    + destruct (lang_void_inv _ H).
    + apply lang_class_inv in H as (c' & E & Hc).
      injection E as -> ->. congruence.
  - assert (Hcat : lang (Cat (deriv c r1) r2) w -> lang (Cat r1 r2) (c :: w)).
    { intros H. apply lang_cat_inv in H as (u & v & -> & Hu & Hv).
      apply IH1 in Hu. exact (lang_cat r1 r2 (c :: u) v Hu Hv). }
    assert (Hinv : lang (Cat r1 r2) (c :: w) ->
                   lang (Cat (deriv c r1) r2) w
                   \/ (lang r1 [] /\ lang (deriv c r2) w)).
    { intros H. apply lang_cat_inv in H as (u & v & E & Hu & Hv).
      destruct u as [|a u]; simpl in E.
      - right. subst v. split; [exact Hu | apply IH2; exact Hv].
      - injection E as -> ->. left. apply lang_cat; [apply IH1 |]; assumption. }
    destruct (nullable r1) eqn:Hn.
    + split; intros H.
      * apply lang_alt_inv in H as [H | H]; [exact (Hcat H) |].
        apply IH2 in H. apply nullable_lang in Hn.
        exact (lang_cat r1 r2 [] (c :: w) Hn H).
      * destruct (Hinv H) as [H' | [_ H']];
          [apply lang_alt_l | apply lang_alt_r]; exact H'.
    + split; [exact Hcat |]. intros H.
      destruct (Hinv H) as [H' | [H' _]]; [exact H' |].
      apply nullable_lang in H'. congruence.
  - split; intros H.
    + apply lang_alt_inv in H as [H | H];
        [apply lang_alt_l, IH1 | apply lang_alt_r, IH2]; exact H.
    + apply lang_alt_inv in H as [H | H];
        [apply lang_alt_l, IH1 | apply lang_alt_r, IH2]; exact H.
  - split; intros H.
    + apply lang_cat_inv in H as (u & v & -> & Hu & Hv).
      apply IH in Hu. exact (lang_star_cons r (c :: u) v Hu Hv).
    + apply lang_star_cons_inv in H as (u & v & -> & Hu & Hv).
      apply lang_cat; [apply IH |]; assumption.
Qed.

Lemma accepts_lang w : forall r, accepts r w = true <-> lang r w.
Proof.
  induction w as [|c w IH]; intros r; simpl.
  - apply nullable_lang.
  - rewrite IH. apply deriv_lang.
Qed.

End RegExpFacts.

(** ** Repetitions of a character class *)

Section ClassFacts.
Import RegExp.
Variable p : ascii -> bool.

Let inClass (w : list ascii) : Prop := Forall (fun c => p c = true) w.

Lemma lang_class_cons_inv c u :
  lang (Class p) (c :: u) -> u = [] /\ p c = true.
Proof.
  intros H. apply lang_class_inv in H as (c' & E & Hc).
  injection E as E1 E2. subst. auto.
Qed.

Lemma lang_star_class w : lang (Star (Class p)) w <-> inClass w.
Proof.
  unfold inClass. split.
  - induction w as [|c w IH]; intros H; constructor.
    + apply lang_star_cons_inv in H as (u & v & _ & Hu & _).
      apply (lang_class_cons_inv _ _ Hu).
    + apply IH. apply lang_star_cons_inv in H as (u & v & E & Hu & Hv).
      apply lang_class_cons_inv in Hu as [-> _]. subst w. exact Hv.
  - induction 1 as [|c w Hc _ IH]; [constructor |].
    apply (lang_star_cons (Class p) [c] w); [constructor; exact Hc | exact IH].
Qed.

Lemma lang_plus_class w :
  lang (Plus (Class p)) w <-> (1 <= List.length w)%nat /\ inClass w.
Proof.
  unfold Plus, inClass. split.
  - intros H. apply lang_cat_inv in H as (u & v & -> & Hu & Hv).
    apply lang_class_inv in Hu as (c & -> & Hc).
    apply lang_star_class in Hv. simpl. split; [lia |].
    constructor; assumption.
  - intros [Hlen Hall]. destruct w as [|c w]; [simpl in Hlen; lia |].
    inversion Hall as [|? ? Hc Hw]; subst.
    apply (lang_cat (Class p) (Star (Class p)) [c] w).
    + constructor. exact Hc.
    + apply lang_star_class. exact Hw.
Qed.

Lemma lang_times_class n :
  forall w, lang (Times n (Class p)) w <-> List.length w = n /\ inClass w.
Proof.
  unfold inClass. induction n as [|n IH]; intros w; simpl.
  - split.
    + intros H. apply lang_eps_inv in H as ->. split; [reflexivity | constructor].
    + intros [Hlen _]. apply length_zero_iff_nil in Hlen as ->. constructor.
  - split.
    + intros H. apply lang_cat_inv in H as (u & v & -> & Hu & Hv).
      apply lang_class_inv in Hu as (c & -> & Hc).
      apply IH in Hv as [Hlen Hall]. simpl. split; [lia |].
      constructor; assumption.
    + intros [Hlen Hall]. destruct w as [|c w]; [discriminate |].
      inversion Hall as [|? ? Hc Hw]; subst.
      apply (lang_cat (Class p) (Times n (Class p)) [c] w).
      * constructor. exact Hc.
      * apply IH. simpl in Hlen. split; [lia | exact Hw].
Qed.

Lemma lang_upto_class n :
  forall w, lang (UpTo n (Class p)) w <-> (List.length w <= n)%nat /\ inClass w.
Proof.
  unfold inClass. induction n as [|n IH]; intros w; simpl.
  - split.
    + intros H. apply lang_eps_inv in H as ->. split; [simpl; lia | constructor].
    + intros [Hlen _]. destruct w; [constructor | simpl in Hlen; lia].
  - unfold Opt. split.
    + intros H. apply lang_alt_inv in H as [H | H].
      * apply lang_eps_inv in H as ->. split; [simpl; lia | constructor].
      * apply lang_cat_inv in H as (u & v & -> & Hu & Hv).
        apply lang_class_inv in Hu as (c & -> & Hc).
        apply IH in Hv as [Hlen Hall]. simpl. split; [lia |].
        constructor; assumption.
    + intros [Hlen Hall]. destruct w as [|c w].
      * apply lang_alt_l. constructor.
      * inversion Hall as [|? ? Hc Hw]; subst. apply lang_alt_r.
        apply (lang_cat (Class p) (UpTo n (Class p)) [c] w).
        -- constructor. exact Hc.
        -- apply IH. simpl in Hlen. split; [lia | exact Hw].
Qed.

Lemma lang_repeat_class lo hi w :
  (lo <= hi)%nat ->
  lang (Repeat lo hi (Class p)) w <->
  (lo <= List.length w <= hi)%nat /\ inClass w.
Proof.
  unfold Repeat, inClass. intros Hle. split.
  - intros H. apply lang_cat_inv in H as (u & v & -> & Hu & Hv).
    apply lang_times_class in Hu as [Hlu Hu].
    apply lang_upto_class in Hv as [Hlv Hv].
    rewrite length_app. split; [lia |]. apply Forall_app. auto.
  - intros [Hlen Hall].
    rewrite <- (firstn_skipn lo w) in Hall |- *.
    apply Forall_app in Hall as [H1 H2].
    apply lang_cat.
    + apply lang_times_class. split; [| exact H1].
      rewrite length_firstn. lia.
    + apply lang_upto_class. split; [| exact H2].
      rewrite length_skipn. lia.
Qed.

End ClassFacts.

Lemma length_list_ascii_of_string s :
  List.length (list_ascii_of_string s) = String.length s.
Proof. induction s as [|c s IH]; simpl; congruence. Qed.

Lemma test_lang r s :
  RegExp.test r s = true <-> RegExp.lang r (list_ascii_of_string s).
Proof. unfold RegExp.test. apply accepts_lang. Qed.

(** [^[cls]+$] accepts the strings of one code unit or more of the class. *)
Lemma test_plus_class cls s :
  RegExp.test (RegExp.Plus (RegExp.Class cls)) s = true <-> Words.oneOrMore cls s.
Proof.
  rewrite test_lang, lang_plus_class, length_list_ascii_of_string. reflexivity.
Qed.

(** [^[cls]{lo,hi}$] accepts the strings of [lo] to [hi] code units of the
    class. *)
Lemma test_repeat_class cls lo hi s :
  (lo <= hi)%nat ->
  RegExp.test (RegExp.Repeat lo hi (RegExp.Class cls)) s = true
  <-> Words.between lo hi cls s.
Proof.
  intros Hle.
  rewrite test_lang, (lang_repeat_class cls lo hi _ Hle),
    length_list_ascii_of_string.
  reflexivity.
Qed.

Lemma list_ascii_of_string_app a b :
  list_ascii_of_string (a ++ b)
  = list_ascii_of_string a ++ list_ascii_of_string b.
Proof. induction a as [|c a IH]; simpl; congruence. Qed.

Lemma is_char_true x c : RegExp.is_char x c = true <-> c = x.
Proof. apply Ascii.eqb_eq. Qed.

(** ** The pattern of the amount input *)

Section AmountPattern.
Import RegExp.
Variable p : N.

Let dd (w : list ascii) : Prop := Forall (fun c => digitOrDash c = true) w.

Lemma amountPattern_lang w :
  lang (OrderForm.amountPattern p) w <->
  dd w
  \/ exists u f, w = u ++ "."%char :: f /\ dd u /\ dd f
                 /\ (List.length f <= N.to_nat p \/ List.length f = 1)%nat.
Proof.
  unfold OrderForm.amountPattern, dd. split.
  - intros H. apply lang_alt_inv in H as [H | H];
      apply lang_cat_inv in H as (u & v & -> & Hu & Hv);
      apply lang_star_class in Hu;
      apply lang_cat_inv in Hv as (d & f & -> & Hd & Hf).
    + apply lang_repeat_class in Hf as [Hlen Hf]; [| lia].
      apply lang_alt_inv in Hd as [Hd | Hd].
      * apply lang_eps_inv in Hd as ->. left. apply Forall_app. auto.
      * apply lang_class_inv in Hd as (c & -> & Hc).
        apply is_char_true in Hc as ->.
        right. exists u, f. repeat split; auto. left. lia.
    + apply lang_class_inv in Hd as (c & -> & Hc).
      apply is_char_true in Hc as ->.
      apply lang_class_inv in Hf as (c & -> & Hc).
      right. exists u, [c]. repeat split; auto.
  - intros [Hw | (u & f & -> & Hu & Hf & [Hlen | Hlen])].
    + apply lang_alt_l. rewrite <- (app_nil_r w).
      apply lang_cat; [apply lang_star_class; exact Hw |].
      apply (lang_cat _ _ [] []); [apply lang_alt_l; constructor |].
      apply lang_repeat_class; [lia |]. split; [simpl; lia | constructor].
    + apply lang_alt_l.
      apply lang_cat; [apply lang_star_class; exact Hu |].
      apply (lang_cat _ _ ["."%char] f).
      * apply lang_alt_r. constructor. reflexivity.
      * apply lang_repeat_class; [lia |]. split; [lia | exact Hf].
    + apply lang_alt_r.
      apply lang_cat; [apply lang_star_class; exact Hu |].
      destruct f as [|c [|c' f]]; try discriminate Hlen.
      inversion Hf as [|? ? Hc _]; subst.
      apply (lang_cat _ _ ["."%char] [c]); constructor; [reflexivity | exact Hc].
Qed.

(** The pattern accepts the amounts of the shape [Words.amountShape]. *)
Lemma amountPattern_accepts s :
  test (OrderForm.amountPattern p) s = true
  <-> Words.amountShape (N.to_nat p) s.
Proof.
  rewrite test_lang, amountPattern_lang.
  unfold Words.amountShape, Words.allIn, dd. split.
  - intros [Hw | (u & f & E & Hu & Hf & Hlen)]; [left; exact Hw |].
    right. exists (string_of_list_ascii u), (string_of_list_ascii f).
    rewrite !list_ascii_of_string_of_list_ascii.
    rewrite <- (length_list_ascii_of_string (string_of_list_ascii f)).
    rewrite list_ascii_of_string_of_list_ascii.
    repeat split; auto.
    rewrite <- (string_of_list_ascii_of_string s), E.
    clear. induction u as [|c u IH]; simpl; [reflexivity |].
    f_equal. exact IH.
  - intros [Hw | (whole & frac & -> & Hu & Hf & Hlen)]; [left; exact Hw |].
    right. exists (list_ascii_of_string whole), (list_ascii_of_string frac).
    rewrite length_list_ascii_of_string.
    repeat split; auto.
    rewrite list_ascii_of_string_app. reflexivity.
Qed.

End AmountPattern.

(** ** Numbers *)

Section NumberFacts.
Local Open Scope float_scope.

(** A number equal to zero is one of the two zeros. *)
Lemma is_zero_cases x : is_zero x = true -> x = zero \/ x = neg_zero.
Proof.
  unfold is_zero. rewrite eqb_spec.
  change (Prim2SF zero) with (S754_zero false).
  intros H. rewrite <- (SF2Prim_Prim2SF x).
  destruct (Prim2SF x) as [[|]|[|]| |[|] m e]; cbn in H; try discriminate H;
    [right | left]; reflexivity.
Qed.

Lemma or_number_truthy x y : JS.truthy_number x = true -> JS.or_number x y = x.
Proof. unfold JS.or_number. intros ->. reflexivity. Qed.

Lemma or_number_falsy x y : JS.truthy_number x = false -> JS.or_number x y = y.
Proof. unfold JS.or_number. intros ->. reflexivity. Qed.

Lemma truthy_number_false x :
  JS.truthy_number x = false <-> is_zero x = true \/ is_nan x = true.
Proof.
  unfold JS.truthy_number. rewrite negb_false_iff, orb_true_iff. reflexivity.
Qed.

Lemma truthy_number_true x :
  JS.truthy_number x = true <-> is_zero x = false /\ is_nan x = false.
Proof.
  unfold JS.truthy_number. rewrite negb_true_iff, orb_false_iff. reflexivity.
Qed.

(** [x || 0] is [x] itself unless [x] is [NaN] or the negative zero. *)
Lemma or_number_zero x :
  is_nan x = false -> x <> neg_zero -> JS.or_number x 0 = x.
Proof.
  intros Hnan Hneg. destruct (JS.truthy_number x) eqn:Ht.
  - apply or_number_truthy. exact Ht.
  - rewrite (or_number_falsy _ _ Ht).
    apply truthy_number_false in Ht as [Hz | Hn]; [| congruence].
    apply is_zero_cases in Hz as [-> | ->]; [reflexivity | congruence].
Qed.

(** Zero divided by zero is [NaN], whatever the signs. *)
Lemma zero_div_zero t a :
  is_zero t = true -> is_zero a = true -> is_nan (t / a) = true.
Proof.
  intros Ht Ha.
  apply is_zero_cases in Ht as [-> | ->];
    apply is_zero_cases in Ha as [-> | ->]; vm_compute; reflexivity.
Qed.

Lemma Number_empty : JS.Number "" = 0.
Proof. vm_compute. reflexivity. Qed.

Lemma Number_0 : JS.Number "0" = 0.
Proof. vm_compute. reflexivity. Qed.

End NumberFacts.

(** ** The KYC address form *)

Section AddressFacts.
Import Address.

Lemma truthy_string_nonempty s : JS.truthy_string s = true <-> s <> "".
Proof. destruct s; simpl; split; congruence. Qed.

Lemma handleCheckButtonDisabled_false s :
  handleCheckButtonDisabled s = false <-> Words.addressFormValid s.
Proof.
  unfold handleCheckButtonDisabled, Words.addressFormValid.
  change (handleValidateInput "address" (State.address s))
    with (RegExp.test residentialAddressRegex (State.address s)).
  change (handleValidateInput "city" (State.city s))
    with (RegExp.test cityRegex (State.city s)).
  change (handleValidateInput "postcode" (State.postcode s))
    with (RegExp.test postcodeRegex (State.postcode s)).
  rewrite !orb_false_iff, !negb_false_iff.
  unfold residentialAddressRegex, cityRegex, postcodeRegex.
  rewrite !test_plus_class, truthy_string_nonempty.
  rewrite (test_repeat_class RegExp.digit 1 12) by lia.
  rewrite Nat.eqb_neq, length_zero_iff_nil.
  tauto.
Qed.

(** C2. The submit button of the address form is enabled exactly when the
    address is one or more characters of [[a-zA-Z0-9,.;/\s]], the city one
    or more letters, the postcode one to twelve digits, the country is
    not empty and a file has been chosen; when any of the five fails,
    [handleCheckButtonDisabled] returns [true] and the button is
    disabled. *)
Theorem address_submit_enabled_iff (s : State.t) :
  (View.submitDisabled (render s) = false <-> Words.addressFormValid s)
  /\ (~ Words.addressFormValid s ->
      handleCheckButtonDisabled s = true
      /\ View.submitDisabled (render s) = true).
Proof.
  change (View.submitDisabled (render s)) with (handleCheckButtonDisabled s).
  split; [apply handleCheckButtonDisabled_false |].
  intros Hn. destruct (handleCheckButtonDisabled s) eqn:Hd; [auto |].
  apply handleCheckButtonDisabled_false in Hd. contradiction.
Qed.

(** C6. Submitting the address form invokes [sendAddresses] once, with a
    payload of exactly five entries: [upload[]], the first element of
    [fileScan], then [address], [country], [city] and [postcode], each as
    it stands in the state; the state is left as it was. *)
Theorem sendAddress_payload :
  forall (countries : Countries) (props : Props.t) (s : State.t),
    sendAddress s = [sendAddresses (Words.payload s)]
    /\ step props s Submit = (s, [sendAddresses (Words.payload s)])
    /\ List.length (Words.payload s) = 5%nat
    /\ (forall f rest, State.fileScan s = f :: rest ->
          nth_error (Words.payload s) 0 = Some ("upload[]", fileValue f)).
Proof.
  intros countries props s. repeat split.
  intros f rest Hf. unfold Words.payload. rewrite Hf. reflexivity.
Qed.

Lemma handleUploadScan_fileScan files s :
  State.fileScan (handleUploadScan files "fileScan" s) = firstn 1 files.
Proof.
  unfold handleUploadScan. simpl.
  destruct files as [|f [|g rest]]; reflexivity.
Qed.

Lemma handleUploadScan_bound files id s :
  (List.length (State.fileScan s) <= 1)%nat ->
  (List.length (State.fileScan (handleUploadScan files id s)) <= 1)%nat.
Proof.
  intros Hs. unfold handleUploadScan.
  destruct (JS.str_eq id "fileScan"); [| exact Hs].
  destruct files as [|f [|g rest]]; simpl; lia.
Qed.

Lemma step_keeps_fileScan {countries : Countries} props s e :
  (forall files, e <> UploadScan files) ->
  State.fileScan (fst (step props s e)) = State.fileScan s.
Proof.
  intros Hne. destruct e as [key v|field|v|files| |next]; simpl;
    try reflexivity.
  - destruct key; reflexivity.
  - destruct field; reflexivity.
  - destruct (Hne files eq_refl).
Qed.

Lemma step_bound {countries : Countries} props s e :
  (List.length (State.fileScan s) <= 1)%nat ->
  (List.length (State.fileScan (fst (step props s e))) <= 1)%nat.
Proof.
  intros Hs. destruct e as [key v|field|v|files| |next];
    try (rewrite step_keeps_fileScan by discriminate; exact Hs).
  apply handleUploadScan_bound. exact Hs.
Qed.

(** C8. The scan-upload handler leaves at most one file in [fileScan], the
    first of the chosen ones; every other operation leaves [fileScan] as
    it is; so no state of the form holds more than one file. *)
Theorem fileScan_at_most_one :
  forall (countries : Countries),
    (forall files s,
        State.fileScan (handleUploadScan files "fileScan" s) = firstn 1 files
        /\ (List.length (State.fileScan (handleUploadScan files "fileScan" s)) <= 1)%nat)
    /\ (forall f g rest s,
        State.fileScan (handleUploadScan (f :: g :: rest) "fileScan" s) = [f])
  /\ (forall files id s,
        (List.length (State.fileScan s) <= 1)%nat ->
        (List.length (State.fileScan (handleUploadScan files id s)) <= 1)%nat)
    /\ (forall props s e,
        (forall files, e <> UploadScan files) ->
        State.fileScan (fst (step props s e)) = State.fileScan s)
    /\ (forall s, reachable s -> (List.length (State.fileScan s) <= 1)%nat).
Proof.
  intros countries. repeat split.
  - apply handleUploadScan_fileScan.
  - rewrite handleUploadScan_fileScan. destruct files; simpl; lia.
  - apply handleUploadScan_bound.
  - intros props s e. apply step_keeps_fileScan.
  - intros s Hr. induction Hr as [|props s e _ IH].
    + simpl. lia.
    + apply step_bound. exact IH.
Qed.

End AddressFacts.

(** ** The order form *)

Section OrderFormFacts.
Import OrderForm.
Context {helpers : Helpers}.
Local Open Scope float_scope.

Lemma str_eq_true x y : JS.str_eq x y = true <-> x = y.
Proof. apply String.eqb_eq. Qed.

Lemma str_eq_false x y : JS.str_eq x y = false <-> x <> y.
Proof. apply String.eqb_neq. Qed.

(** C3. The amount handler cleans its input; when the cleaned value does
    not match the pattern built from [currentMarketAskPrecision] the
    state is left as it is, and when it matches, the amount becomes the
    cleaned value and nothing else changes.  The pattern is the decimal
    one limited by the precision: it matches the values of the shape
    [Words.amountShape]. *)
Theorem handleAmountChange_spec (value : string) (s : State.t) :
  (RegExp.test (amountPattern (State.currentMarketAskPrecision s))
               (cleanPositiveFloatInput value) = false ->
   handleAmountChange value s = s)
  /\ (RegExp.test (amountPattern (State.currentMarketAskPrecision s))
                  (cleanPositiveFloatInput value) = true ->
      State.amount (handleAmountChange value s) = cleanPositiveFloatInput value
      /\ handleAmountChange value s
         = State.set_amount (cleanPositiveFloatInput value) s)
  /\ (RegExp.test (amountPattern (State.currentMarketAskPrecision s))
                  (cleanPositiveFloatInput value) = true
      <-> Words.amountShape (N.to_nat (State.currentMarketAskPrecision s))
                            (cleanPositiveFloatInput value)).
Proof.
  unfold handleAmountChange. split; [| split].
  - intros ->. reflexivity.
  - intros ->. split; reflexivity.
  - apply amountPattern_accepts.
Qed.

Lemma checkButtonIsDisabled_invalid_amount sa sp price props s :
  (sa <=? 0) = true -> checkButtonIsDisabled sa sp price props s = true.
Proof.
  intros H. unfold checkButtonIsDisabled. rewrite H.
  rewrite !orb_true_r. reflexivity.
Qed.

(** C4. When the amount is the string ["0"], the safe amount is [0], so
    [checkButtonIsDisabled] returns [true] and the submit button is
    disabled, whatever the props and the rest of the state. *)
Theorem amount_zero_disables (props : Props.t) (s : State.t) :
  State.amount s = "0" ->
  safeAmount s = 0
  /\ checkButtonIsDisabled (safeAmount s) (safePrice props s)
                           (State.price s) props s = true
  /\ View.submitDisabled (render props s) = true.
Proof.
  intros Ha.
  assert (Hs : safeAmount s = 0).
  { unfold safeAmount. rewrite Ha, Number_0. reflexivity. }
  assert (Hd : checkButtonIsDisabled (safeAmount s) (safePrice props s)
                                     (State.price s) props s = true).
  { apply checkButtonIsDisabled_invalid_amount. rewrite Hs. reflexivity. }
  auto.
Qed.

(** C9. When the [available] prop is [undefined] or [0] (a zero of either
    sign), [checkButtonIsDisabled] returns [true], whatever its other
    arguments, and the submit button is disabled. *)
Theorem no_available_disables (props : Props.t) (s : State.t)
    (sa sp : float) (price : string) :
  Props.available props = None
  \/ (exists a, Props.available props = Some a /\ is_zero a = true) ->
  checkButtonIsDisabled sa sp price props s = true
  /\ View.submitDisabled (render props s) = true.
Proof.
  intros Hav.
  assert (Hn : negb (JS.truthy_opt JS.truthy_number (Props.available props)) = true).
  { destruct Hav as [-> | (a & -> & Ha)]; [reflexivity |].
    simpl. unfold JS.truthy_number. rewrite Ha. reflexivity. }
  assert (Hd : forall a b c,
             checkButtonIsDisabled a b c props s = true).
  { intros a b c. unfold checkButtonIsDisabled. rewrite Hn.
    rewrite orb_true_r. reflexivity. }
  split; [apply Hd |]. unfold render; simpl. apply Hd.
Qed.

(** C10. When [totalPrice / Number(amount)] is zero or [NaN], as it is for
    an empty amount, or an amount parsing to zero, with a zero total,
    [safePrice] is the [priceMarket] of the state; when the quotient is
    any other number, [Infinity] included, [safePrice] is the quotient;
    the unit price shown is [safePrice] formatted to the bid
    precision. *)
Theorem safePrice_fallback (props : Props.t) (s : State.t) :
  (is_zero (totalPrice props s / JS.Number (State.amount s)) = true
   \/ is_nan (totalPrice props s / JS.Number (State.amount s)) = true ->
   safePrice props s = State.priceMarket s)
  /\ (is_zero (totalPrice props s) = true ->
      State.amount s = "" \/ is_zero (JS.Number (State.amount s)) = true ->
      safePrice props s = State.priceMarket s)
  /\ (is_zero (totalPrice props s / JS.Number (State.amount s)) = false ->
      is_nan (totalPrice props s / JS.Number (State.amount s)) = false ->
      safePrice props s = totalPrice props s / JS.Number (State.amount s))
  /\ (totalPrice props s / JS.Number (State.amount s) = infinity ->
      safePrice props s = infinity)
  /\ View.unitPrice (render props s) =
     handleSetValue
       (Some (Decimal_format (Some (safePrice props s))
                             (State.currentMarketBidPrecision s))) "0".
Proof.
  unfold safePrice. repeat split.
  - intros Hq. apply or_number_falsy, truthy_number_false. exact Hq.
  - intros Ht Ha. apply or_number_falsy, truthy_number_false. right.
    apply zero_div_zero; [exact Ht |].
    destruct Ha as [-> | Ha]; [reflexivity | exact Ha].
  - intros Hz Hn. apply or_number_truthy, truthy_number_true. auto.
  - intros ->. reflexivity.
Qed.

(** C5, amended. The order handed to [onSubmit] carries the form type
    ([buy] or [sell]), the order type, the amount string and a number for
    [available]; its price is the [price] string of the state unless the
    order type is ['Market'], in which case it is the [priceMarket]
    number of the state. *)
Theorem order_shape (props : Props.t) (s : State.t) :
  exists order : Order.t,
    snd (handleSubmit props s) = [onSubmit order]
    /\ Order.type order = Props.type props
    /\ Order.orderType order = State.orderType s
    /\ Order.amount order = State.amount s
    /\ Order.available order = JS.or_opt_number (Props.available props) 0
    /\ (State.orderType s = "Market" ->
        Order.price order = ofNumber (State.priceMarket s))
    /\ (State.orderType s <> "Market" ->
        Order.price order = ofString (State.price s)).
Proof.
  eexists. split; [reflexivity |]. simpl. repeat split.
  - intros Hm. apply str_eq_true in Hm. rewrite Hm. reflexivity.
  - intros Hm. apply str_eq_false in Hm. rewrite Hm. reflexivity.
Qed.

(** C7. The submit handler calls [onSubmit] once, with the order built
    from the props and the state, and then empties the amount and the
    price; the order type, the market price, the precisions and the
    focus flags stay as they were. *)
Theorem handleSubmit_frame (props : Props.t) (s : State.t) :
  snd (handleSubmit props s)
  = [onSubmit
       (Order.mk (Props.type props) (State.orderType s) (State.amount s)
          (if JS.str_eq (State.orderType s) "Market"
           then ofNumber (State.priceMarket s)
           else ofString (State.price s))
          (JS.or_opt_number (Props.available props) 0))]
  /\ fst (handleSubmit props s)
     = State.mk (State.orderType s) "" "" (State.priceMarket s)
         (State.currentMarketAskPrecision s)
         (State.currentMarketBidPrecision s)
         (State.amountFocused s) (State.priceFocused s).
Proof. split; reflexivity. Qed.

End OrderFormFacts.

(** ** The theorems at work on the sample forms *)

Section Runs.
Local Open Scope float_scope.
#[local] Existing Instance Sample.helpers.
#[local] Existing Instance Sample.countries.

(** Typing ["1,2345"] sets the amount to ["1.2345"]; typing ["1,23456"],
    one decimal too many for the precision 4, changes nothing. *)
Lemma handleAmountChange_run :
  OrderForm.State.amount (OrderForm.handleAmountChange "1,2345" Sample.state)
  = "1.2345"
  /\ OrderForm.handleAmountChange "1,23456" Sample.state = Sample.state.
Proof.
  split.
  - refine (proj1 (proj1 (proj2 (handleAmountChange_spec "1,2345" Sample.state)) _)).
    vm_compute. reflexivity.
  - apply (proj1 (handleAmountChange_spec "1,23456" Sample.state)).
    vm_compute. reflexivity.
Defined.

Lemma amount_zero_disables_run :
  OrderForm.State.amount Sample.zeroState = "0"
  /\ OrderForm.View.submitDisabled
       (OrderForm.render Sample.props Sample.zeroState) = true.
Proof.
  split; [reflexivity |].
  apply (amount_zero_disables Sample.props Sample.zeroState). reflexivity.
Defined.

Lemma no_available_disables_run :
  OrderForm.View.submitDisabled
    (OrderForm.render Sample.propsNoFunds Sample.state) = true
  /\ OrderForm.checkButtonIsDisabled 3 15 "" Sample.propsEmptied Sample.state
     = true.
Proof.
  split.
  - apply (no_available_disables Sample.propsNoFunds Sample.state 3 15 "").
    left. reflexivity.
  - apply (no_available_disables Sample.propsEmptied Sample.state 3 15 "").
    right. exists 0. split; reflexivity.
Defined.

(** With no amount typed the unit price is the market price, 15; with the
    amount 3 it is the quotient of the total by 3. *)
Lemma safePrice_fallback_run :
  OrderForm.safePrice Sample.props (OrderForm.constructor Sample.props) = 15
  /\ OrderForm.safePrice Sample.props Sample.state
     = OrderForm.totalPrice Sample.props Sample.state / JS.Number "3".
Proof.
  destruct (safePrice_fallback Sample.props (OrderForm.constructor Sample.props))
    as (_ & Hzero & _).
  destruct (safePrice_fallback Sample.props Sample.state)
    as (_ & _ & Hquot & _).
  split.
  - apply Hzero; [vm_compute; reflexivity | left; reflexivity].
  - apply Hquot; vm_compute; reflexivity.
Defined.

(** C5 as stated fails: the market order of the sample form carries the
    number 15 as its price, not a string. *)
Lemma market_order_price_is_number :
  exists order : OrderForm.Order.t,
    snd (OrderForm.handleSubmit Sample.props Sample.state)
    = [OrderForm.onSubmit order]
    /\ OrderForm.Order.orderType order = "Market"
    /\ OrderForm.Order.price order = OrderForm.ofNumber 15
    /\ forall text : string,
         OrderForm.Order.price order <> OrderForm.ofString text.
Proof.
  eexists. split; [reflexivity |]. repeat split.
  intros text. discriminate.
Qed.

Lemma order_shape_run :
  exists order : OrderForm.Order.t,
    snd (OrderForm.handleSubmit Sample.props Sample.limitState)
    = [OrderForm.onSubmit order]
    /\ OrderForm.Order.price order = OrderForm.ofString "12.50".
Proof.
  destruct (order_shape Sample.props Sample.limitState)
    as (order & Hcall & _ & _ & _ & _ & _ & Hprice).
  exists order. split; [exact Hcall |].
  apply Hprice. discriminate.
Defined.

Lemma sample_address_valid : Words.addressFormValid Sample.addressState.
Proof.
  unfold Words.addressFormValid, Words.oneOrMore, Words.between, Words.allIn.
  simpl. repeat split; try lia; try discriminate; repeat constructor.
Qed.

(** The filled-in form can be sent; the empty one cannot. *)
Lemma address_submit_enabled_run :
  Address.View.submitDisabled (Address.render Sample.addressState) = false
  /\ Address.handleCheckButtonDisabled Address.initialState = true.
Proof.
  split.
  - apply (proj1 (address_submit_enabled_iff Sample.addressState)).
    exact sample_address_valid.
  - apply (proj2 (address_submit_enabled_iff Address.initialState)).
    intros (_ & _ & _ & Hcountry & _). apply Hcountry. reflexivity.
Defined.

Lemma sendAddress_payload_run :
  Address.sendAddress Sample.addressState
  = [Address.sendAddresses (Words.payload Sample.addressState)]
  /\ nth_error (Words.payload Sample.addressState) 0
     = Some ("upload[]", Address.fileValue Sample.scan).
Proof.
  destruct (sendAddress_payload Sample.countries Sample.addressProps
              Sample.addressState) as (Hcall & _ & _ & Hfile).
  split; [exact Hcall |].
  apply (Hfile Sample.scan []). reflexivity.
Defined.

(** Choosing three documents on the filled-in form keeps the first
    only. *)
Lemma fileScan_at_most_one_run :
  Address.State.fileScan
    (Address.handleUploadScan Sample.scans "fileScan" Sample.addressState)
  = [Sample.scan]
  /\ (List.length
        (Address.State.fileScan
           (fst (Address.step Sample.addressProps Address.initialState
                   (Address.UploadScan Sample.scans)))) <= 1)%nat.
Proof.
  destruct (fileScan_at_most_one Sample.countries)
    as (_ & Hfirst & _ & _ & Hreach).
  split.
  - apply Hfirst.
  - apply Hreach. apply Address.reachable_step. apply Address.reachable_init.
Defined.

End Runs.

(** ** The currency dropdown *)

Section MarketsFacts.
Import Markets.
Context {modules : Modules}.

Lemma lowerChar_idempotent c : lowerChar (lowerChar c) = lowerChar c.
Proof. destruct c as [[] [] [] [] [] [] [] []]; reflexivity. Qed.

Lemma toLowerCase_idempotent s : toLowerCase (toLowerCase s) = toLowerCase s.
Proof.
  induction s as [|c s IH]; simpl; [reflexivity |].
  rewrite lowerChar_idempotent, IH. reflexivity.
Qed.

Lemma bothGiven_true cs ms :
  bothGiven (Some cs) (Some ms) = true <-> cs <> [] /\ ms <> [].
Proof.
  unfold bothGiven. rewrite andb_true_iff, !negb_true_iff, !Nat.eqb_neq.
  rewrite !length_zero_iff_nil. reflexivity.
Qed.

(** A currency is listed when it is not the primary one and some market
    trades it against the primary one. *)
Let listed (ms : list Market) (cur : Currency) : bool :=
  notPrimary cur
  && match find (tradesAgainstPrimary cur) ms with
     | Some _ => true
     | None => false
     end.

Lemma fold_formattedList ms cs : forall formattedList,
  fold_left
    (fun formattedList cur =>
       if notPrimary cur then
         match find (tradesAgainstPrimary cur) ms with
         | Some _ => formattedList ++ [name cur]
         | None => formattedList
         end
       else formattedList) cs formattedList
  = formattedList ++ map name (filter (listed ms) cs).
Proof.
  induction cs as [|cur cs IH]; intros acc; simpl.
  - rewrite app_nil_r. reflexivity.
  - rewrite IH. unfold listed at 2.
    destruct (notPrimary cur); simpl; [| reflexivity].
    destruct (find (tradesAgainstPrimary cur) ms); simpl; [| reflexivity].
    rewrite <- app_assoc. reflexivity.
Qed.

Lemma formatCurrencyList_filter cs ms :
  formatCurrencyList (Some cs) (Some ms) = map name (filter (listed ms) cs).
Proof.
  unfold formatCurrencyList.
  destruct (bothGiven (Some cs) (Some ms)) eqn:Hb.
  - apply fold_formattedList.
  - destruct cs as [|c cs]; [reflexivity |].
    destruct ms as [|m ms]; [| discriminate Hb].
    simpl. clear Hb. unfold listed. simpl.
    assert (H : forall l, filter (fun cur => notPrimary cur && false) l = [])
      by (induction l as [|x l IH]; simpl; [| rewrite andb_false_r]; auto).
    rewrite andb_false_r, H. reflexivity.
Qed.

Lemma someSetsMarket_filter ms cs :
  someSetsMarket ms cs
  = match filter (listed ms) cs with
    | [] => []
    | cur :: _ =>
        match find (tradesAgainstPrimary cur) ms with
        | Some targetMarket => [targetMarket]
        | None => []
        end
    end.
Proof.
  induction cs as [|cur cs IH]; simpl; [reflexivity |].
  unfold listed at 1.
  destruct (notPrimary cur); simpl; [| exact IH].
  destruct (find (tradesAgainstPrimary cur) ms) eqn:Hf; simpl.
  - rewrite Hf. reflexivity.
  - exact IH.
Qed.

Lemma componentDidMount_filter cs ms :
  componentDidMount (Some cs) (Some ms) = someSetsMarket ms cs.
Proof.
  unfold componentDidMount.
  destruct (bothGiven (Some cs) (Some ms)) eqn:Hb; [reflexivity |].
  destruct cs as [|c cs]; [reflexivity |].
  destruct ms as [|m ms]; [| discriminate Hb].
  clear Hb. induction (c :: cs) as [|x l IH]; simpl; [reflexivity |].
  destruct (notPrimary x); exact IH.
Qed.

Lemma listed_true ms cur :
  listed ms cur = true <->
  exists i m,
    id cur = Some i /\ i <> ""
    /\ toLowerCase i <> toLowerCase VALUATION_PRIMARY_CURRENCY
    /\ find (tradesAgainstPrimary cur) ms = Some m.
Proof.
  unfold listed, notPrimary. split.
  - intros H. apply andb_true_iff in H as [Hn Hf].
    destruct (id cur) as [i|]; [| discriminate Hn].
    apply andb_true_iff in Hn as [Hi Hp].
    apply truthy_string_nonempty in Hi.
    apply negb_true_iff, str_eq_false in Hp.
    destruct (find (tradesAgainstPrimary cur) ms) as [m|]; [| discriminate Hf].
    exists i, m. auto.
  - intros (i & m & -> & Hi & Hp & ->).
    apply truthy_string_nonempty in Hi. apply str_eq_false in Hp.
    rewrite Hi, Hp. reflexivity.
Qed.

Lemma tradesAgainstPrimary_true cur i m :
  id cur = Some i -> i <> "" ->
  tradesAgainstPrimary cur m = true <->
  toLowerCase (base_unit m) = toLowerCase i
  /\ quote_unit m = toLowerCase VALUATION_PRIMARY_CURRENCY.
Proof.
  intros Hid Hi. unfold tradesAgainstPrimary, idLowered. rewrite Hid.
  apply truthy_string_nonempty in Hi. rewrite Hi. simpl.
  rewrite andb_true_iff, !str_eq_true. split; intros [H1 H2]; auto.
Qed.

(** X1. The dropdown lists nothing exactly when mounting the form selects no
    market, and mounting selects one market at most. *)
Theorem componentDidMount_once (currencies : option (list Currency))
    (markets : option (list Market)) :
  (List.length (componentDidMount currencies markets) <= 1)%nat
  /\ (componentDidMount currencies markets = []
      <-> formatCurrencyList currencies markets = []).
Proof.
  destruct currencies as [cs|], markets as [ms|];
    try (simpl; split; [lia | tauto]).
  rewrite componentDidMount_filter, someSetsMarket_filter,
    formatCurrencyList_filter.
  destruct (filter (listed ms) cs) as [|cur l] eqn:Hf.
  - simpl. split; [lia | tauto].
  - assert (Hl : listed ms cur = true).
    { assert (Hin : In cur (filter (listed ms) cs)) by (rewrite Hf; left; auto).
      apply filter_In in Hin. tauto. }
    apply listed_true in Hl as (i & m & _ & _ & _ & ->).
    simpl. split; [lia |]. split; discriminate.
Qed.

(** X2. The market selected on mount is one of the markets given; it is quoted
    in the primary currency (in lower case), and its base unit is, up to
    case, the id of the first currency of the dropdown, which is not the
    primary currency. *)
Theorem componentDidMount_market (currencies : option (list Currency))
    (markets : option (list Market)) (market : Market) :
  componentDidMount currencies markets = [market] ->
  exists cs ms cur i,
    currencies = Some cs /\ markets = Some ms
    /\ In market ms /\ In cur cs
    /\ hd_error (formatCurrencyList currencies markets) = Some (name cur)
    /\ id cur = Some i /\ i <> ""
    /\ toLowerCase i <> toLowerCase VALUATION_PRIMARY_CURRENCY
    /\ toLowerCase (base_unit market) = toLowerCase i
    /\ quote_unit market = toLowerCase VALUATION_PRIMARY_CURRENCY.
Proof.
  destruct currencies as [cs|], markets as [ms|]; try discriminate.
  rewrite componentDidMount_filter, someSetsMarket_filter,
    formatCurrencyList_filter.
  destruct (filter (listed ms) cs) as [|cur l] eqn:Hf; [discriminate |].
  assert (Hin : In cur (filter (listed ms) cs)) by (rewrite Hf; left; auto).
  apply filter_In in Hin as [Hin Hl].
  apply listed_true in Hl as (i & m & Hid & Hi & Hp & Hfind).
  rewrite Hfind. intros E. injection E as ->.
  apply find_some in Hfind as [Hm Ht].
  apply (tradesAgainstPrimary_true cur i market Hid Hi) in Ht as [Hb Hq].
  exists cs, ms, cur, i. simpl. repeat split; auto.
Qed.

(** X3. A name is in the dropdown exactly when it is the name of a currency
    with a non-empty id other than the primary currency (up to case) for
    which some market has that id as base unit (up to case) and the primary
    currency, in lower case, as quote unit.  The dropdown is never longer
    than the list of currencies, and is empty without currencies or
    markets. *)
Theorem formatCurrencyList_In (cs : list Currency) (ms : list Market)
    (n : string) :
  (In n (formatCurrencyList (Some cs) (Some ms)) <->
   exists cur i m,
     In cur cs /\ name cur = n
     /\ id cur = Some i /\ i <> ""
     /\ toLowerCase i <> toLowerCase VALUATION_PRIMARY_CURRENCY
     /\ In m ms
     /\ toLowerCase (base_unit m) = toLowerCase i
     /\ quote_unit m = toLowerCase VALUATION_PRIMARY_CURRENCY)
  /\ (List.length (formatCurrencyList (Some cs) (Some ms)) <= List.length cs)%nat
  /\ formatCurrencyList None (Some ms) = []
  /\ formatCurrencyList (Some cs) None = []
  /\ formatCurrencyList (Some cs) (Some []) = [].
Proof.
  split; [| split; [| repeat split]].
  - rewrite formatCurrencyList_filter, in_map_iff. split.
    + intros (cur & Hn & Hin). apply filter_In in Hin as [Hin Hl].
      apply listed_true in Hl as (i & m & Hid & Hi & Hp & Hfind).
      apply find_some in Hfind as [Hm Ht].
      apply (tradesAgainstPrimary_true cur i m Hid Hi) in Ht as [Hb Hq].
      exists cur, i, m. repeat split; auto.
    + intros (cur & i & m & Hin & Hn & Hid & Hi & Hp & Hm & Hb & Hq).
      exists cur. split; [exact Hn |]. apply filter_In. split; [exact Hin |].
      destruct (find (tradesAgainstPrimary cur) ms) as [m'|] eqn:Hfind.
      * apply listed_true. exists i, m'. auto.
      * apply (find_none _ _ Hfind) in Hm.
        assert (Ht : tradesAgainstPrimary cur m = true)
          by (apply (tradesAgainstPrimary_true cur i m Hid Hi); auto).
        congruence.
  - rewrite formatCurrencyList_filter, length_map. apply filter_length_le.
  - unfold formatCurrencyList. simpl.
    destruct (negb (List.length cs =? 0)%nat); reflexivity.
Qed.

Ltac no_call :=
  repeat split; simpl; auto; try lia; try discriminate; try (intros ? []).

Lemma opt_str_eq_Some a b : JS.opt_str_eq (Some a) (Some b) = true <-> a = b.
Proof. simpl. apply str_eq_true. Qed.

(** X4. Selecting a name calls [setCurrentMarket] once at most; the market it
    passes is one of the markets given, quoted in the primary currency (in
    lower case), and its base unit is, letter for letter, the id of a
    currency with the selected name.  Selecting nothing, or a name no
    currency has, or selecting without markets, calls nothing. *)
Theorem handleChangeBaseCurrency_market (value : option string)
    (currencies : option (list Currency)) (markets : option (list Market)) :
  (List.length (handleChangeBaseCurrency value currencies markets) <= 1)%nat
  /\ (forall market,
        In market (handleChangeBaseCurrency value currencies markets) ->
        exists cs ms cur,
          currencies = Some cs /\ markets = Some ms
          /\ In cur cs /\ value = Some (name cur)
          /\ In market ms
          /\ id cur = Some (base_unit market)
          /\ quote_unit market = toLowerCase VALUATION_PRIMARY_CURRENCY)
  /\ (value = None -> handleChangeBaseCurrency value currencies markets = [])
  /\ ((forall cs cur, currencies = Some cs -> In cur cs ->
         value <> Some (name cur)) ->
      handleChangeBaseCurrency value currencies markets = [])
  /\ (markets = None \/ markets = Some [] ->
      handleChangeBaseCurrency value currencies markets = []).
Proof.
  unfold handleChangeBaseCurrency.
  destruct currencies as [cs|]; [| no_call].
  destruct (List.length cs =? 0)%nat eqn:Hlen; [no_call |].
  destruct (find (fun cur => JS.opt_str_eq (Some (name cur)) value) cs)
    as [target|] eqn:Hfind; [| no_call].
  apply find_some in Hfind as [Hin Hname].
  destruct value as [v|]; [| discriminate Hname].
  apply opt_str_eq_Some in Hname.
  assert (Hknown : (forall cs' cur, Some cs = Some cs' -> In cur cs' ->
                      Some v <> Some (name cur)) -> False).
  { intros H. destruct (H cs target eq_refl Hin). congruence. }
  destruct markets as [ms|]; [| no_call; intros H; destruct (Hknown H)].
  destruct (List.length ms =? 0)%nat eqn:Hms;
    [no_call; intros H; destruct (Hknown H) |].
  destruct (find _ ms) as [marketToSet|] eqn:Hm;
    [| no_call; intros H; destruct (Hknown H)].
  apply find_some in Hm as [Hmin Hp].
  apply andb_true_iff in Hp as [Hb Hq]. apply str_eq_true in Hq.
  split; [simpl; lia |]. split; [| split; [discriminate | split]].
  - intros market [<- | []].
    exists cs, ms, target. repeat split; auto; try congruence.
    destruct (id target) as [i|]; [| discriminate Hb].
    apply opt_str_eq_Some in Hb. congruence.
  - intros H. destruct (Hknown H).
  - intros [H | H]; [discriminate H |]. injection H as ->. discriminate Hms.
Qed.

Lemma NoDup_map_injective {A B : Type} (f : A -> B) (l : list A) x y :
  NoDup (map f l) -> In x l -> In y l -> f x = f y -> x = y.
Proof.
  induction l as [|a l IH]; simpl; intros Hnd Hx Hy E; [destruct Hx |].
  inversion Hnd as [|? ? Hnotin Hnd']; subst.
  destruct Hx as [-> | Hx], Hy as [-> | Hy]; auto.
  - destruct Hnotin. rewrite E. apply in_map. exact Hy.
  - destruct Hnotin. rewrite <- E. apply in_map. exact Hx.
Qed.

Lemma find_ext_in {A : Type} (f g : A -> bool) (l : list A) :
  (forall x, In x l -> f x = g x) -> find f l = find g l.
Proof.
  induction l as [|a l IH]; simpl; intros H; [reflexivity |].
  rewrite (H a (or_introl eq_refl)), IH; [reflexivity |].
  intros x Hx. apply H. right. exact Hx.
Qed.

Section LowerCaseIds.
Variables (cs : list Currency) (ms : list Market).
Hypothesis ids_lower :
  forall cur i, In cur cs -> id cur = Some i -> toLowerCase i = i.
Hypothesis base_units_lower :
  forall m, In m ms -> toLowerCase (base_unit m) = base_unit m.
Hypothesis names_distinct : NoDup (map name cs).

Lemma find_by_name cur :
  In cur cs ->
  find (fun c => JS.opt_str_eq (Some (name c)) (Some (name cur))) cs = Some cur.
Proof.
  intros Hin.
  destruct (find _ cs) as [c|] eqn:Hf.
  - apply find_some in Hf as [Hc Hn]. apply opt_str_eq_Some in Hn.
    f_equal. exact (NoDup_map_injective name cs c cur names_distinct Hc Hin Hn).
  - apply (find_none _ _ Hf) in Hin.
    assert (H : JS.opt_str_eq (Some (name cur)) (Some (name cur)) = true)
      by (apply opt_str_eq_Some; reflexivity).
    congruence.
Qed.

Lemma find_market_agree cur :
  In cur cs -> notPrimary cur = true ->
  find (fun market =>
          JS.opt_str_eq (Some (base_unit market)) (id cur)
          && JS.str_eq (quote_unit market)
                       (toLowerCase VALUATION_PRIMARY_CURRENCY)) ms
  = find (tradesAgainstPrimary cur) ms.
Proof.
  intros Hin Hnp. apply find_ext_in. intros m Hm.
  unfold tradesAgainstPrimary, idLowered.
  unfold notPrimary in Hnp.
  destruct (id cur) as [i|] eqn:Hid; [| discriminate Hnp].
  apply andb_true_iff in Hnp as [Hi _]. rewrite Hi.
  rewrite (ids_lower cur i Hin Hid), (base_units_lower m Hm).
  simpl. unfold JS.str_eq. rewrite (String.eqb_sym i). reflexivity.
Qed.

Lemma handleChangeBaseCurrency_listed cur :
  In cur cs -> listed ms cur = true ->
  handleChangeBaseCurrency (Some (name cur)) (Some cs) (Some ms)
  = match find (tradesAgainstPrimary cur) ms with
    | Some m => [m]
    | None => []
    end.
Proof.
  intros Hin Hl. unfold handleChangeBaseCurrency.
  assert (Hnp : notPrimary cur = true).
  { unfold listed in Hl. apply andb_true_iff in Hl. tauto. }
  apply listed_true in Hl as (i & m & _ & _ & _ & Hfind).
  assert (Hcs : (List.length cs =? 0)%nat = false).
  { apply Nat.eqb_neq. destruct cs; [destruct Hin | discriminate]. }
  assert (Hms : (List.length ms =? 0)%nat = false).
  { apply Nat.eqb_neq. apply find_some in Hfind as [Hm _].
    destruct ms; [destruct Hm | discriminate]. }
  rewrite Hcs, (find_by_name cur Hin), Hms, (find_market_agree cur Hin Hnp).
  reflexivity.
Qed.

End LowerCaseIds.

(** X5. When the ids of the currencies and the base units of the markets are
    in lower case and no two currencies share a name, selecting any entry
    of the dropdown calls [setCurrentMarket] once, with a market whose base
    unit is the id of the currency of that name and whose quote unit is
    the primary currency. *)
Theorem onSelect_listed (cs : list Currency) (ms : list Market)
    (value : nat) (n : string) :
  (forall cur i, In cur cs -> id cur = Some i -> toLowerCase i = i) ->
  (forall m, In m ms -> toLowerCase (base_unit m) = base_unit m) ->
  NoDup (map name cs) ->
  nth_error (formatCurrencyList (Some cs) (Some ms)) value = Some n ->
  exists cur market,
    onSelect value (Some cs) (Some ms) = [market]
    /\ In cur cs /\ name cur = n
    /\ In market ms
    /\ id cur = Some (base_unit market)
    /\ quote_unit market = toLowerCase VALUATION_PRIMARY_CURRENCY.
Proof.
  intros Hids Hbases Hnames Hnth. unfold onSelect. rewrite Hnth.
  apply nth_error_In in Hnth.
  rewrite formatCurrencyList_filter, in_map_iff in Hnth.
  destruct Hnth as (cur & <- & Hin). apply filter_In in Hin as [Hin Hl].
  rewrite (handleChangeBaseCurrency_listed cs ms Hids Hbases Hnames cur Hin Hl).
  apply listed_true in Hl as (i & m & Hid & Hi & _ & Hfind).
  rewrite Hfind. exists cur, m. apply find_some in Hfind as [Hm Ht].
  apply (tradesAgainstPrimary_true cur i m Hid Hi) in Ht as [Hb Hq].
  repeat split; auto.
  rewrite Hid. f_equal.
  rewrite <- (Hids cur i Hin Hid), <- Hb. apply Hbases. exact Hm.
Qed.

(** X6. Under the same conditions, mounting the form selects the very market
    that selecting the first entry of the dropdown selects. *)
Theorem componentDidMount_selects_first (cs : list Currency)
    (ms : list Market) :
  (forall cur i, In cur cs -> id cur = Some i -> toLowerCase i = i) ->
  (forall m, In m ms -> toLowerCase (base_unit m) = base_unit m) ->
  NoDup (map name cs) ->
  componentDidMount (Some cs) (Some ms) = onSelect 0 (Some cs) (Some ms).
Proof.
  intros Hids Hbases Hnames. unfold onSelect.
  rewrite componentDidMount_filter, someSetsMarket_filter,
    formatCurrencyList_filter.
  destruct (filter (listed ms) cs) as [|cur l] eqn:Hf; simpl.
  - unfold handleChangeBaseCurrency.
    destruct (List.length cs =? 0)%nat; [reflexivity |].
    assert (H : find (fun c => JS.opt_str_eq (Some (name c)) None) cs = None)
      by (clear; induction cs as [|c l IH]; simpl; auto).
    rewrite H. reflexivity.
  - assert (Hin : In cur (filter (listed ms) cs)) by (rewrite Hf; left; auto).
    apply filter_In in Hin as [Hin Hl].
    rewrite (handleChangeBaseCurrency_listed cs ms Hids Hbases Hnames cur Hin Hl).
    reflexivity.
Qed.

End MarketsFacts.

(** ** The life of an order form *)

Section LifecycleFacts.
Import OrderForm Lifecycle.
Context {helpers : Helpers}.
Local Open Scope float_scope.

Lemma opt_str_eq_true a b : JS.opt_str_eq a b = true <-> a = b.
Proof.
  destruct a as [a|], b as [b|]; simpl; try (split; congruence).
  rewrite str_eq_true. split; congruence.
Qed.

Lemma opt_str_eq_refl a : JS.opt_str_eq a a = true.
Proof. apply opt_str_eq_true. reflexivity. Qed.

(** A number that is not [NaN] and not at most zero is above zero. *)
Lemma not_leb_zero x : is_nan x = false -> (x <=? 0) = false -> (0 <? x) = true.
Proof.
  unfold is_nan. rewrite eqb_spec, leb_spec, ltb_spec.
  change (Prim2SF 0) with (S754_zero false).
  destruct (Prim2SF x) as [[|]|[|]| |[|] m e]; cbn; intros Hn Hle;
    try discriminate; reflexivity.
Qed.

Lemma is_nan_or_number_zero x : is_nan (JS.or_number x 0) = false.
Proof.
  destruct (JS.truthy_number x) eqn:Ht.
  - rewrite (or_number_truthy _ _ Ht). apply truthy_number_true in Ht. tauto.
  - rewrite (or_number_falsy _ _ Ht). reflexivity.
Qed.

Lemma step_orderType props s e :
  State.orderType (fst (step props s e)) = State.orderType s.
Proof.
  destruct e as [next| |value|]; simpl.
  - unfold componentWillReceiveProps. simpl.
    match goal with |- context [if ?b then _ else _] => destruct b end;
      reflexivity.
  - unfold handleFieldFocus.
    destruct (JS.opt_str_eq _ (Props.priceText props)); [reflexivity |].
    destruct (JS.opt_str_eq _ (Props.amountText props)); reflexivity.
  - unfold handleAmountChange.
    match goal with |- context [if ?b then _ else _] => destruct b end;
      reflexivity.
  - reflexivity.
Qed.

Lemma step_price_market props s e :
  State.orderType s = "Market" -> State.price s = "" ->
  State.price (fst (step props s e)) = "".
Proof.
  intros Hm Hp. destruct e as [next| |value|]; simpl.
  - unfold componentWillReceiveProps. rewrite Hm. simpl. exact Hp.
  - unfold handleFieldFocus.
    destruct (JS.opt_str_eq _ (Props.priceText props)); [exact Hp |].
    destruct (JS.opt_str_eq _ (Props.amountText props)); exact Hp.
  - unfold handleAmountChange.
    match goal with |- context [if ?b then _ else _] => destruct b end;
      exact Hp.
  - reflexivity.
Qed.

(** X7. No method changes the order type: a form is in market mode from its
    construction on.  So its [price] stays empty, its total is always the
    one [getTotalPrice] returns, and the limit branches of [render] and of
    [checkButtonIsDisabled] are never taken. *)
Theorem reachable_market_mode (s : State.t) :
  reachable s ->
  State.orderType s = "Market"
  /\ State.price s = ""
  /\ forall props,
       total props s = getTotalPrice (State.amount s) (Props.proposals props)
       /\ View.submitDisabled (render props s)
          = (JS.truthy_opt JS.truthy_bool (Props.disabled props)
             || negb (JS.truthy_opt JS.truthy_number (Props.available props))
             || (safeAmount s <=? 0)
             || (safePrice props s <=? 0)).
Proof.
  intros Hr.
  assert (H : State.orderType s = "Market" /\ State.price s = "").
  { induction Hr as [props|props s e _ [IH1 IH2]].
    - split; reflexivity.
    - split; [rewrite step_orderType; exact IH1 |].
      apply step_price_market; assumption. }
  destruct H as [Hm Hp]. repeat split; auto.
  - unfold total. rewrite Hm. reflexivity.
  - unfold render, checkButtonIsDisabled. simpl. rewrite Hm. simpl.
    rewrite andb_false_r, andb_true_r, orb_false_r. reflexivity.
Qed.

Lemma amountShape_empty p : Words.amountShape p "".
Proof. left. constructor. Qed.

(** X8. The amount a form holds is always empty or a value the amount pattern
    accepted: digits and dashes around one point at most. *)
Theorem reachable_amount_shape (s : State.t) :
  reachable s ->
  State.amount s = "" \/ exists p, Words.amountShape p (State.amount s).
Proof.
  induction 1 as [props|props s e _ IH].
  - left. reflexivity.
  - destruct e as [next| |value|]; simpl.
    + unfold componentWillReceiveProps. simpl.
      match goal with |- context [if ?b then _ else _] => destruct b end;
        exact IH.
    + unfold handleFieldFocus.
      destruct (JS.opt_str_eq _ (Props.priceText props)); [exact IH |].
      destruct (JS.opt_str_eq _ (Props.amountText props)); exact IH.
    + unfold handleAmountChange.
      destruct (RegExp.test _ _) eqn:Ht; [| exact IH].
      right. exists (N.to_nat (State.currentMarketAskPrecision s)).
      apply amountPattern_accepts. exact Ht.
    + left. reflexivity.
Qed.

Lemma empty_amount_disabled props s :
  State.amount s = "" -> View.submitDisabled (render props s) = true.
Proof.
  intros Ha. unfold render. simpl.
  apply checkButtonIsDisabled_invalid_amount.
  unfold safeAmount. rewrite Ha, Number_empty. reflexivity.
Qed.

(** X9. A form cannot be submitted as constructed, nor again right after a
    submission: in both states the amount is empty and the button is
    disabled, whatever the props. *)
Theorem submit_disabled_when_fresh (props props' : Props.t) (s : State.t) :
  View.submitDisabled (render props (constructor props')) = true
  /\ View.submitDisabled (render props (fst (handleSubmit props' s))) = true.
Proof. split; apply empty_amount_disabled; reflexivity. Qed.

Lemma enabled_inv props s :
  View.submitDisabled (render props s) = false ->
  Props.disabled props <> Some true
  /\ (exists a, Props.available props = Some a /\ JS.truthy_number a = true)
  /\ (safeAmount s <=? 0) = false.
Proof.
  unfold render, checkButtonIsDisabled. simpl. intros H.
  repeat (apply orb_false_iff in H as [H ?]).
  repeat split; auto.
  - intros E. rewrite E in H. discriminate H.
  - destruct (Props.available props) as [a|]; [| discriminate].
    exists a. split; [reflexivity |]. apply negb_false_iff. assumption.
Qed.

(** X10. When the submit button is enabled, the amount parses to a number above
    zero, the form is not disabled, and [available] is a number other than
    zero and [NaN]. *)
Theorem enabled_amount_positive (props : Props.t) (s : State.t) :
  View.submitDisabled (render props s) = false ->
  (0 <? JS.Number (State.amount s)) = true
  /\ safeAmount s = JS.Number (State.amount s)
  /\ Props.disabled props <> Some true
  /\ exists a, Props.available props = Some a
               /\ is_zero a = false /\ is_nan a = false.
Proof.
  intros H. apply enabled_inv in H as (Hd & (a & Ha & Ht) & Hle).
  assert (Hpos : (0 <? safeAmount s) = true).
  { apply not_leb_zero; [apply is_nan_or_number_zero | exact Hle]. }
  assert (Hs : safeAmount s = JS.Number (State.amount s)).
  { unfold safeAmount in *.
    destruct (JS.truthy_number (JS.Number (State.amount s))) eqn:Hn.
    - apply or_number_truthy. exact Hn.
    - rewrite (or_number_falsy _ _ Hn) in Hle. discriminate Hle. }
  rewrite <- Hs. repeat split; auto.
  exists a. apply truthy_number_true in Ht. tauto.
Qed.

(** X11. A click on the enabled button of a form sends one market order: the
    amount, which parses to a number above zero, the market price of the
    state as a number, and the available balance of the props; after it the
    button is disabled. *)
Theorem reachable_submit_order (props : Props.t) (s : State.t) :
  reachable s ->
  View.submitDisabled (render props s) = false ->
  exists a,
    Props.available props = Some a
    /\ snd (step props s Submit)
       = [onSubmit (Order.mk (Props.type props) "Market" (State.amount s)
                             (ofNumber (State.priceMarket s)) a)]
    /\ (0 <? JS.Number (State.amount s)) = true
    /\ View.submitDisabled (render props (fst (step props s Submit))) = true.
Proof.
  intros Hr He.
  assert (Hm : State.orderType s = "Market").
  { clear He. induction Hr as [p|p s e _ IH]; [reflexivity |].
    rewrite step_orderType. exact IH. }
  pose proof (enabled_inv props s He) as (_ & (a & Ha & Ht) & Hle).
  exists a. split; [exact Ha |]. split; [| split].
  - simpl. rewrite Hm, Ha. simpl. rewrite (or_number_truthy _ _ Ht).
    reflexivity.
  - assert (Hn : is_nan (safeAmount s) = false) by apply is_nan_or_number_zero.
    pose proof (not_leb_zero _ Hn Hle) as Hpos.
    unfold safeAmount in *.
    destruct (JS.truthy_number (JS.Number (State.amount s))) eqn:Hn'.
    + rewrite (or_number_truthy _ _ Hn') in Hpos. exact Hpos.
    + rewrite (or_number_falsy _ _ Hn') in Hle. discriminate Hle.
  - apply empty_amount_disabled. reflexivity.
Qed.

(** X12. Focusing the amount input toggles [amountFocused] only when the amount
    label differs from the price label; when the two labels are equal (both
    left out, say) the price case of the switch wins: [priceFocused] is
    toggled, [listenInputPrice] is called if given, and [amountFocused]
    stays.  In each case the amount, the price and the order type stay. *)
Theorem focus_amount_cases (props : Props.t) (s : State.t) :
  (Props.priceText props <> Props.amountText props ->
   step props s FocusAmount
   = (State.set_amountFocused (negb (State.amountFocused s)) s, []))
  /\ (Props.priceText props = Props.amountText props ->
      step props s FocusAmount
      = (State.set_priceFocused (negb (State.priceFocused s)) s,
         if Props.listenInputPrice props then [listenInputPrice] else []))
  /\ State.amount (fst (step props s FocusAmount)) = State.amount s
  /\ State.price (fst (step props s FocusAmount)) = State.price s
  /\ State.orderType (fst (step props s FocusAmount)) = State.orderType s.
Proof.
  simpl. unfold handleFieldFocus. repeat split.
  - intros Hne.
    destruct (JS.opt_str_eq (Props.amountText props) (Props.priceText props))
      eqn:E.
    + apply opt_str_eq_true in E. congruence.
    + rewrite opt_str_eq_refl. reflexivity.
  - intros <-. rewrite opt_str_eq_refl. reflexivity.
  - destruct (JS.opt_str_eq _ (Props.priceText props)); [reflexivity |].
    destruct (JS.opt_str_eq _ (Props.amountText props)); reflexivity.
  - destruct (JS.opt_str_eq _ (Props.priceText props)); [reflexivity |].
    destruct (JS.opt_str_eq _ (Props.amountText props)); reflexivity.
  - destruct (JS.opt_str_eq _ (Props.priceText props)); [reflexivity |].
    destruct (JS.opt_str_eq _ (Props.amountText props)); reflexivity.
Qed.

Lemma amountShape_monotone p q s :
  (p <= q)%nat -> Words.amountShape p s -> Words.amountShape q s.
Proof.
  intros Hle [H | (whole & frac & E & Hw & Hf & Hlen)]; [left; exact H |].
  right. exists whole, frac. repeat split; auto. lia.
Qed.

(** X13. An amount accepted at one precision is accepted at every larger
    one. *)
Theorem amountPattern_monotone (p q : N) (value : string) :
  (p <= q)%N ->
  RegExp.test (amountPattern p) value = true ->
  RegExp.test (amountPattern q) value = true.
Proof.
  intros Hle. rewrite !amountPattern_accepts.
  apply amountShape_monotone. lia.
Qed.

Lemma allIn_app cls a b :
  Words.allIn cls (a ++ b) <-> Words.allIn cls a /\ Words.allIn cls b.
Proof.
  unfold Words.allIn. rewrite list_ascii_of_string_app. apply Forall_app.
Qed.

(** X14. At every precision, zero included, the pattern accepts the empty
    amount (the input can be cleared) and any digits followed by a point
    and one digit; it accepts no amount with a character other than a
    digit, a dash or a point. *)
Theorem amountPattern_edges (p : N) :
  RegExp.test (amountPattern p) "" = true
  /\ (forall whole c,
        Words.allIn RegExp.digitOrDash whole ->
        RegExp.digitOrDash c = true ->
        RegExp.test (amountPattern p) (whole ++ "." ++ String c "") = true)
  /\ (forall value,
        RegExp.test (amountPattern p) value = true ->
        Words.allIn (fun c => RegExp.digitOrDash c || RegExp.is_char "." c)
                    value).
Proof.
  repeat split.
  - apply amountPattern_accepts, amountShape_empty.
  - intros whole c Hw Hc. apply amountPattern_accepts. right.
    exists whole, (String c "").
    split; [reflexivity |]. split; [exact Hw |]. split.
    + constructor; [exact Hc | constructor].
    + right. reflexivity.
  - intros value Hv. apply amountPattern_accepts in Hv.
    assert (Hweak : forall t, Words.allIn RegExp.digitOrDash t ->
              Words.allIn (fun c => RegExp.digitOrDash c || RegExp.is_char "." c) t).
    { intros t. unfold Words.allIn. apply Forall_impl.
      intros a Ha. rewrite Ha. reflexivity. }
    destruct Hv as [H | (whole & frac & -> & Hw & Hf & _)]; [auto |].
    apply allIn_app. split; [auto |].
    apply (allIn_app _ "." frac). split; [| auto].
    constructor; [reflexivity | constructor].
Qed.

(** X15. Sending a constructed form the props it was constructed with changes
    nothing exactly when both precisions of the props are not zero: the
    constructor replaces a precision of zero by 6, [componentWillReceiveProps]
    takes it as it is. *)
Theorem receive_same_props (props : Props.t) :
  componentWillReceiveProps props (constructor props) = constructor props
  <-> Props.currentMarketAskPrecision props <> 0%N
      /\ Props.currentMarketBidPrecision props <> 0%N.
Proof.
  unfold componentWillReceiveProps, constructor, State.set_market. simpl.
  unfold or_precision.
  destruct (N.eqb_spec (Props.currentMarketAskPrecision props) 0) as [Ea|Ea];
    destruct (N.eqb_spec (Props.currentMarketBidPrecision props) 0) as [Eb|Eb];
    split; try tauto; try reflexivity.
  - rewrite Ea. intros H. discriminate H.
  - rewrite Ea. intros H. discriminate H.
  - rewrite Eb. intros H. injection H as H. discriminate H.
Qed.

End LifecycleFacts.

(** ** More on the KYC address form *)

Section AddressMore.
Import Address.
Context {countries : Countries}.

(** X16. A field marked wrong keeps the form from being sent: when the submit
    button is enabled no field carries the mark.  An empty field is never
    marked, though it disables the button. *)
Theorem enabled_no_wrong_mark (s : State.t) :
  (View.submitDisabled (render s) = false ->
   View.addressWrong (render s) = false
   /\ View.cityWrong (render s) = false
   /\ View.postcodeWrong (render s) = false)
  /\ (State.address s = "" ->
      View.addressWrong (render s) = false
      /\ View.submitDisabled (render s) = true)
  /\ (State.city s = "" ->
      View.cityWrong (render s) = false
      /\ View.submitDisabled (render s) = true)
  /\ (State.postcode s = "" ->
      View.postcodeWrong (render s) = false
      /\ View.submitDisabled (render s) = true).
Proof.
  unfold render, handleCheckButtonDisabled.
  cbn [View.submitDisabled View.addressWrong View.cityWrong View.postcodeWrong].
  split; [| split; [| split]].
  - destruct (handleValidateInput "address" (State.address s)),
      (handleValidateInput "city" (State.city s)),
      (handleValidateInput "postcode" (State.postcode s));
      simpl; intros H; try discriminate H; rewrite !andb_false_r; auto.
  - intros ->. split; reflexivity.
  - intros ->. split; [reflexivity |].
    change (handleValidateInput "city" "") with false.
    simpl. rewrite orb_true_r. reflexivity.
  - intros ->. split; [reflexivity |].
    change (handleValidateInput "postcode" "") with false.
    simpl. rewrite !orb_true_r. reflexivity.
Qed.

(** X17. A form whose button is enabled holds exactly one file, and sending it
    uploads that file (never the text of an absent one), with the four
    texts of the state. *)
Theorem enabled_submits_file (s : State.t) :
  reachable s ->
  handleCheckButtonDisabled s = false ->
  exists f,
    State.fileScan s = [f]
    /\ sendAddress s
       = [sendAddresses
            [ ("upload[]", fileValue f);
              ("address", stringValue (State.address s));
              ("country", stringValue (State.country s));
              ("city", stringValue (State.city s));
              ("postcode", stringValue (State.postcode s)) ]].
Proof.
  intros Hr He.
  assert (Hlen : (List.length (State.fileScan s) <= 1)%nat).
  { clear He. induction Hr as [|props s e _ IH]; [simpl; lia |].
    apply step_bound. exact IH. }
  unfold handleCheckButtonDisabled in He.
  apply orb_false_iff in He as [_ Hn]. apply Nat.eqb_neq in Hn.
  unfold sendAddress.
  destruct (State.fileScan s) as [|f [|g rest]]; simpl in *; try lia.
  exists f. split; reflexivity.
Qed.

(** X18. Choosing files and then sending uploads the first of the chosen files,
    however many were chosen, with the texts the form held before. *)
Theorem upload_then_send (f : File) (rest : list File) (s : State.t) :
  sendAddress (handleUploadScan (f :: rest) "fileScan" s)
  = [sendAddresses
       [ ("upload[]", fileValue f);
         ("address", stringValue (State.address s));
         ("country", stringValue (State.country s));
         ("city", stringValue (State.city s));
         ("postcode", stringValue (State.postcode s)) ]].
Proof. destruct rest; reflexivity. Qed.

(** X19. Only a submission calls [sendAddresses], and only new props with a
    non-empty [success] call [history.push], with ['/settings']; typing,
    focusing, selecting a country and choosing files call nothing, and
    neither a submission nor new props change the state. *)
Theorem calls_by_event (props : Props.t) (s : State.t) (e : Event) :
  (forall call, In call (snd (step props s e)) ->
     (e = Submit /\ call = sendAddresses (Words.payload s))
     \/ (exists next text,
           e = ReceiveProps next /\ Props.success next = Some text
           /\ text <> "" /\ call = historyPush "/settings"))
  /\ (e = Submit \/ (exists next, e = ReceiveProps next) ->
      fst (step props s e) = s).
Proof.
  split.
  - intros call Hin. destruct e as [key v|field|v|files| |next]; simpl in Hin;
      try contradiction.
    + left. destruct Hin as [<- | []]. split; reflexivity.
    + right. unfold UNSAFE_componentWillReceiveProps in Hin.
      destruct (Props.success next) as [text|] eqn:Hs; simpl in Hin;
        [| destruct Hin].
      destruct (JS.truthy_string text) eqn:Ht; [| destruct Hin].
      destruct Hin as [<- | []].
      exists next, text. apply truthy_string_nonempty in Ht. auto.
  - intros [-> | [next ->]]; reflexivity.
Qed.

Lemma state_eta (s : State.t) :
  State.mk (State.country s) (State.address s) (State.addressFocused s)
           (State.city s) (State.cityFocused s) (State.postcode s)
           (State.postcodeFocused s) (State.fileScan s) = s.
Proof. destruct s; reflexivity. Qed.

(** X20. Focusing a field twice (focus, then blur) gives the state back, and a
    focus changes neither the submit button nor what a submission
    sends. *)
Theorem focus_twice (field : string) (s : State.t) :
  handleFieldFocus field (handleFieldFocus field s) = s
  /\ handleCheckButtonDisabled (handleFieldFocus field s)
     = handleCheckButtonDisabled s
  /\ sendAddress (handleFieldFocus field s) = sendAddress s.
Proof.
  unfold handleFieldFocus.
  destruct (JS.str_eq field "address");
    [| destruct (JS.str_eq field "city");
       [| destruct (JS.str_eq field "postcode")]];
    repeat split;
    try (unfold State.set_addressFocused, State.set_cityFocused,
           State.set_postcodeFocused; simpl; rewrite negb_involutive;
         apply state_eta).
Qed.

(** X21. Choosing no file (an emptied selection) drops the file the form held:
    the button is disabled and no file name is shown. *)
Theorem empty_selection_disables (s : State.t) :
  handleCheckButtonDisabled (handleUploadScan [] "fileScan" s) = true
  /\ View.uploadedFile (render (handleUploadScan [] "fileScan" s)) = None.
Proof.
  split; [| reflexivity].
  unfold handleCheckButtonDisabled. simpl. apply orb_true_r.
Qed.

End AddressMore.

(** ** These theorems at work on the samples *)

Section MoreRuns.
Local Open Scope float_scope.
#[local] Existing Instance Sample.helpers.
#[local] Existing Instance Sample.countries.
#[local] Existing Instance SampleMarkets.modules.

(** Mounting the sample form selects BTC/USD, the market of the first
    entry of the dropdown. *)
Lemma componentDidMount_market_run :
  exists cs ms cur i,
    Some SampleMarkets.currencies = Some cs
    /\ Some SampleMarkets.markets = Some ms
    /\ In SampleMarkets.btcusd ms /\ In cur cs
    /\ hd_error (Markets.formatCurrencyList (Some SampleMarkets.currencies)
                   (Some SampleMarkets.markets)) = Some (Markets.name cur)
    /\ Markets.id cur = Some i /\ i <> ""
    /\ Markets.toLowerCase i
       <> Markets.toLowerCase Markets.VALUATION_PRIMARY_CURRENCY
    /\ Markets.toLowerCase (Markets.base_unit SampleMarkets.btcusd)
       = Markets.toLowerCase i
    /\ Markets.quote_unit SampleMarkets.btcusd
       = Markets.toLowerCase Markets.VALUATION_PRIMARY_CURRENCY.
Proof.
  exact (componentDidMount_market (Some SampleMarkets.currencies)
           (Some SampleMarkets.markets) SampleMarkets.btcusd eq_refl).
Defined.

Lemma sample_ids_lower :
  forall cur i, In cur SampleMarkets.currencies -> Markets.id cur = Some i ->
                Markets.toLowerCase i = i.
Proof.
  intros cur i [<- | [<- | [<- | [<- | []]]]] E; injection E as <-;
    reflexivity.
Qed.

Lemma sample_base_units_lower :
  forall m, In m SampleMarkets.markets ->
            Markets.toLowerCase (Markets.base_unit m) = Markets.base_unit m.
Proof. intros m [<- | [<- | [<- | []]]]; reflexivity. Qed.

Lemma sample_names_distinct :
  NoDup (map Markets.name SampleMarkets.currencies).
Proof.
  repeat constructor; simpl; intros H;
    repeat (destruct H as [H | H]; [discriminate H |]); exact H.
Qed.

(** Selecting the second entry, Ethereum, selects ETH/USD. *)
Lemma onSelect_listed_run :
  exists cur market,
    Markets.onSelect 1 (Some SampleMarkets.currencies)
                     (Some SampleMarkets.markets) = [market]
    /\ In cur SampleMarkets.currencies /\ Markets.name cur = "Ethereum"
    /\ In market SampleMarkets.markets
    /\ Markets.id cur = Some (Markets.base_unit market)
    /\ Markets.quote_unit market
       = Markets.toLowerCase Markets.VALUATION_PRIMARY_CURRENCY.
Proof.
  exact (onSelect_listed SampleMarkets.currencies SampleMarkets.markets 1
           "Ethereum" sample_ids_lower sample_base_units_lower
           sample_names_distinct eq_refl).
Defined.

Lemma componentDidMount_selects_first_run :
  Markets.componentDidMount (Some SampleMarkets.currencies)
                            (Some SampleMarkets.markets)
  = Markets.onSelect 0 (Some SampleMarkets.currencies)
                     (Some SampleMarkets.markets).
Proof.
  exact (componentDidMount_selects_first SampleMarkets.currencies
           SampleMarkets.markets sample_ids_lower sample_base_units_lower
           sample_names_distinct).
Defined.

Lemma sample_state_reachable : Lifecycle.reachable Sample.state.
Proof.
  change Sample.state
    with (fst (Lifecycle.step Sample.props (OrderForm.constructor Sample.props)
                 (Lifecycle.AmountChange "3"))).
  apply Lifecycle.reachable_step, Lifecycle.reachable_init.
Qed.

Lemma reachable_market_mode_run :
  OrderForm.State.orderType Sample.state = "Market"
  /\ OrderForm.State.price Sample.state = ""
  /\ OrderForm.total Sample.props Sample.state
     = Sample.getTotalPrice "3" [["10"; "2"]; ["20"; "2"]].
Proof.
  destruct (reachable_market_mode Sample.state sample_state_reachable)
    as (Hm & Hp & Hall).
  split; [exact Hm | split; [exact Hp |]].
  exact (proj1 (Hall Sample.props)).
Defined.

Lemma reachable_amount_shape_run :
  OrderForm.State.amount Sample.state = ""
  \/ exists p, Words.amountShape p (OrderForm.State.amount Sample.state).
Proof.
  exact (reachable_amount_shape Sample.state sample_state_reachable).
Defined.

Lemma sample_enabled :
  OrderForm.View.submitDisabled (OrderForm.render Sample.props Sample.state)
  = false.
Proof. vm_compute. reflexivity. Qed.

Lemma enabled_amount_positive_run :
  (0 <? JS.Number "3") = true
  /\ OrderForm.safeAmount Sample.state = JS.Number "3".
Proof.
  destruct (enabled_amount_positive Sample.props Sample.state sample_enabled)
    as (Hpos & Hs & _).
  split; [exact Hpos | exact Hs].
Defined.

(** The sample form sends a market order of 3 at the market price 15, with
    100 available, and then disables its button. *)
Lemma reachable_submit_order_run :
  exists a,
    OrderForm.Props.available Sample.props = Some a
    /\ snd (Lifecycle.step Sample.props Sample.state Lifecycle.Submit)
       = [OrderForm.onSubmit
            (OrderForm.Order.mk OrderForm.buy "Market" "3"
                                (OrderForm.ofNumber 15) a)]
    /\ (0 <? JS.Number "3") = true
    /\ OrderForm.View.submitDisabled
         (OrderForm.render Sample.props
            (fst (Lifecycle.step Sample.props Sample.state Lifecycle.Submit)))
       = true.
Proof.
  exact (reachable_submit_order Sample.props Sample.state
           sample_state_reachable sample_enabled).
Defined.

(** ["1.25"] is accepted at the precision 2, so at the precision 4. *)
Lemma amountPattern_monotone_run :
  RegExp.test (OrderForm.amountPattern 4) "1.25" = true.
Proof.
  apply (amountPattern_monotone 2 4 "1.25"); [lia |].
  vm_compute. reflexivity.
Defined.

Lemma sample_address_reachable : Address.reachable Sample.addressState.
Proof.
  change Sample.addressState
    with (fst (Address.step Sample.addressProps
            (fst (Address.step Sample.addressProps
               (fst (Address.step Sample.addressProps
                  (fst (Address.step Sample.addressProps
                     (fst (Address.step Sample.addressProps Address.initialState
                        (Address.Change Address.addressField
                           "Main Street 5, Flat 2")))
                     (Address.Change Address.cityField "Berlin")))
                  (Address.Change Address.postcodeField "10115")))
               (Address.SelectCountry "Germany")))
            (Address.UploadScan [Sample.scan]))).
  repeat apply Address.reachable_step. apply Address.reachable_init.
Qed.

(** The filled-in sample form sends the file bill.pdf. *)
Lemma enabled_submits_file_run :
  exists f,
    Address.State.fileScan Sample.addressState = [f]
    /\ Address.sendAddress Sample.addressState
       = [Address.sendAddresses
            [ ("upload[]", Address.fileValue f);
              ("address", Address.stringValue "Main Street 5, Flat 2");
              ("country", Address.stringValue "DE");
              ("city", Address.stringValue "Berlin");
              ("postcode", Address.stringValue "10115") ]].
Proof.
  exact (enabled_submits_file Sample.addressState sample_address_reachable
           eq_refl).
Defined.

End MoreRuns.

(** ** The total the order form shows *)

Section FormatFacts.

Lemma digit_char n : RegExp.digit (ascii_of_N (48 + n mod 10)) = true.
Proof.
  assert (H : (n mod 10 < 10)%N) by (apply N.mod_lt; discriminate).
  destruct (n mod 10)%N as [|p] eqn:E; [reflexivity |].
  do 4 (destruct p as [p|p|]; try reflexivity; try (exfalso; lia)).
Qed.

Lemma digits_allIn fuel : forall n width acc,
  Words.allIn RegExp.digit acc ->
  Words.allIn RegExp.digit (Sample.digits fuel n width acc).
Proof.
  induction fuel as [|fuel IH]; intros n width acc Hacc; simpl; [exact Hacc |].
  assert (Hacc' : Words.allIn RegExp.digit
                    (String (ascii_of_N (48 + n mod 10)) acc)).
  { constructor; [apply digit_char | exact Hacc]. }
  destruct ((n / 10 =? 0)%N && (width <=? 1)%nat); [exact Hacc' |].
  apply IH. exact Hacc'.
Qed.

Lemma digits_length fuel : forall n width acc,
  (1 <= width <= fuel)%nat ->
  (n < 10 ^ N.of_nat width)%N ->
  String.length (Sample.digits fuel n width acc)
  = (width + String.length acc)%nat.
Proof.
  induction fuel as [|fuel IH]; intros n width acc Hw Hn; [lia |].
  simpl.
  destruct ((n / 10 =? 0)%N && (width <=? 1)%nat) eqn:Hstop.
  - apply andb_true_iff in Hstop as [_ Hw1]. apply Nat.leb_le in Hw1.
    simpl. lia.
  - assert (Hw2 : (2 <= width)%nat).
    { destruct (Nat.le_gt_cases 2 width) as [H | H]; [exact H |].
      assert (width = 1%nat) by lia. subst width.
      change (10 ^ N.of_nat 1)%N with 10%N in Hn.
      rewrite (N.div_small n 10 Hn) in Hstop. discriminate Hstop. }
    rewrite IH.
    + simpl. lia.
    + lia.
    + apply N.Div0.div_lt_upper_bound.
      replace (N.of_nat width) with (N.succ (N.of_nat (pred width))) in Hn by lia.
      rewrite N.pow_succ_r' in Hn. exact Hn.
Qed.

Lemma digits_nonempty fuel n width acc :
  Sample.digits (S fuel) n width acc <> "".
Proof.
  simpl. destruct ((n / 10 =? 0)%N && (width <=? 1)%nat).
  - discriminate.
  - intros E. apply (f_equal String.length) in E.
    assert (H : forall f m w a,
               (String.length a <= String.length (Sample.digits f m w a))%nat).
    { clear. induction f as [|f IH]; intros m w a; simpl; [lia |].
      destruct ((m / 10 =? 0)%N && (w <=? 1)%nat); simpl; [lia |].
      eapply Nat.le_trans; [| apply IH]. simpl. lia. }
    specialize (H fuel (n / 10)%N (pred width)
                  (String (ascii_of_N (48 + n mod 10)) acc)).
    simpl in *. lia.
Qed.

Lemma string_app_empty (a : string) : (a ++ "")%string = a.
Proof. induction a as [|c a IH]; simpl; congruence. Qed.

Lemma show_clamped precision neg scaled :
  (0 <= scaled)%Z ->
  Words.clampedTo precision
    (let scale := (10 ^ Z.of_N precision)%Z in
     let whole := Sample.decimal (Z.to_N (scaled / scale)) 1 in
     let text :=
       if (precision =? 0)%N then whole
       else (whole ++ "."
             ++ Sample.decimal (Z.to_N (scaled mod scale)) (N.to_nat precision))%string in
     if neg && (0 <? scaled)%Z then ("-" ++ text)%string else text).
Proof.
  intros Hs. cbv zeta. right. right. right.
  set (scale := (10 ^ Z.of_N precision)%Z).
  assert (Hscale : (0 < scale)%Z) by (apply Z.pow_pos_nonneg; lia).
  exists (if neg && (0 <? scaled)%Z then "-" else ""),
    (Sample.decimal (Z.to_N (scaled / scale)) 1),
    (if (precision =? 0)%N then ""
     else Sample.decimal (Z.to_N (scaled mod scale)) (N.to_nat precision)).
  split; [destruct (neg && (0 <? scaled)%Z); auto |].
  split; [apply digits_nonempty |].
  split; [apply digits_allIn; constructor |].
  split; [| split].
  - destruct (precision =? 0)%N; [constructor |].
    apply digits_allIn. constructor.
  - destruct (N.eqb_spec precision 0) as [-> | Hp]; [reflexivity |].
    unfold Sample.decimal. rewrite digits_length.
    + simpl. lia.
    + lia.
    + rewrite N2Nat.id.
      assert (Hm : (0 <= scaled mod scale < scale)%Z)
        by (apply Z.mod_pos_bound; exact Hscale).
      apply N2Z.inj_lt. rewrite Z2N.id by lia.
      rewrite N2Z.inj_pow. exact (proj2 Hm).
  - destruct (neg && (0 <? scaled)%Z), (precision =? 0)%N;
      rewrite ?string_app_empty; reflexivity.
Qed.

Lemma scaled_nonneg (m : positive) (e : Z) (precision : N) :
  (0 <= if (0 <=? e)%Z then Z.pos m * 2 ^ e * 10 ^ Z.of_N precision
        else Z.pos m * 10 ^ Z.of_N precision / 2 ^ (- e))%Z.
Proof.
  assert (H10 : (0 <= 10 ^ Z.of_N precision)%Z) by (apply Z.pow_nonneg; lia).
  destruct (Z.leb_spec 0 e) as [He | He].
  - assert (H2 : (0 <= 2 ^ e)%Z) by (apply Z.pow_nonneg; lia).
    apply Z.mul_nonneg_nonneg; [apply Z.mul_nonneg_nonneg |]; lia.
  - apply Z.div_pos; [apply Z.mul_nonneg_nonneg; lia |].
    apply Z.pow_pos_nonneg; lia.
Qed.

(** The format modelled from the spec clamps to the precision it is
    given. *)
Lemma Decimal_format_clamped value precision :
  Words.clampedTo precision (Sample.Decimal_format value precision).
Proof.
  unfold Sample.Decimal_format.
  destruct value as [x|]; [| apply (show_clamped precision false 0); lia].
  destruct (Prim2SF x) as [sg|[|]| |neg m e].
  - apply (show_clamped precision false 0). lia.
  - right. right. left. reflexivity.
  - right. left. reflexivity.
  - left. reflexivity.
  - apply (show_clamped precision neg). apply scaled_nonneg.
Qed.

End FormatFacts.

Section DisplayedTotal.
Import OrderForm.
Local Open Scope float_scope.


#[local] Existing Instance Sample.helpers.


Lemma whole_state_reachable : Lifecycle.reachable Sample.wholeState.
Proof.
  change Sample.wholeState
    with (fst (Lifecycle.step Sample.wholeProps
                 (constructor Sample.wholeProps) (Lifecycle.AmountChange "3"))).
  apply Lifecycle.reachable_step, Lifecycle.reachable_init.
Qed.


End DisplayedTotal.
